(** * Forensic audio server: preset catalog, filter-chain builder and
      request handler of [audio_server.py], embedded and verified.

    The development follows the source top-down:
    - [Py]: the pieces of the Python runtime the source relies on (integer
      and float formatting inside f-strings, true division of integers,
      exceptions);
    - [PRESETS] and [build_ffmpeg_filter]: the catalog and the chain builder;
    - [Heap]: the same builder over an object store, where [dict.copy] is a
      shallow copy and [dict.update] writes in place;
    - [Paths]: [pathlib] joins and the scratch file names;
    - [Handler]: [process_audio_file] and [process_audio] over a file
      system, with the external tools as an oracle.  *)

From Stdlib Require Import ZArith Ascii String.
From Stdlib Require Import Floats.PrimFloat Floats.SpecFloat Numbers.DecimalString.
From Stdlib Require Floats.FloatOps Numbers.DecimalZ.
From stdpp Require Import gmap strings list sorting.

Set Warnings "-inexact-float".
Open Scope Z_scope.

(** ** Exceptions and results *)

(** The exception classes that occur in the source, with [str(e)] as the
    carried message.  [Exception] stands for any other subclass. *)
Inductive exn :=
| ValueError (msg : string)
| OverflowError (msg : string)
| FileNotFoundError (msg : string)
| CalledProcessError (msg : string)
| OSError (msg : string)
| Exception (msg : string)
| HTTPException (status_code : Z) (detail : string).

Inductive result (A : Type) :=
| Ok (a : A)
| Raise (e : exn).
Arguments Ok {A} a.
Arguments Raise {A} e.

Definition result_bind {A B} (r : result A) (k : A → result B) : result B :=
  match r with
  | Ok a => k a
  | Raise e => Raise e
  end.

#[global] Instance result_ret : MRet result := @Ok.
#[global] Instance result_bind_inst : MBind result := λ A B k r, result_bind r k.
#[global] Instance result_throw : MThrow exn result := @Raise.

(** ** The Python runtime *)

Module Py.

(** The decimal text of an [int]: what [str(z)] and [f"{z}"] give when
    the conversion is allowed (see [format_int] for when it is not). *)
Definition str_of_int (z : Z) : string := NilZero.string_of_int (Z.to_int z).

(** [str(e)] of an exception. *)
Definition str_of_exn (e : exn) : string :=
  match e with
  | ValueError m | OverflowError m | FileNotFoundError m
  | CalledProcessError m | OSError m | Exception m => m
  | HTTPException c d => str_of_int c +:+ ": " +:+ d
  end.

(** [sep.join(parts)] *)
Fixpoint join (sep : string) (parts : list string) : string :=
  match parts with
  | [] => ""
  | [p] => p
  | p :: rest => p +:+ sep +:+ join sep rest
  end.

(** *** binary64 arithmetic

    Floats are the kernel's binary64 numbers, which is what CPython's
    [float] is.  The two conversions below go through exact integer
    arithmetic: [n/d] with [0 < n], [0 < d] is rounded to the nearest
    double, ties to even. *)

Definition round_half_even (n d : Z) : Z :=
  let q := n / d in
  match 2 * (n mod d) ?= d with
  | Lt => q
  | Gt => q + 1
  | Eq => if Z.even q then q else q + 1
  end.

(** [n / (d * 2^e)] as a fraction of integers *)
Definition scale2 (n d e : Z) : Z * Z :=
  if 0 <=? e then (n, d * 2 ^ e) else (n * 2 ^ (- e), d).

(** mantissa and exponent [(m, e)] of the double nearest to [n/d] *)
Definition nearest_binary64 (n d : Z) : Z * Z :=
  let e0 := Z.log2 n - Z.log2 d - 53 in
  let '(a0, b0) := scale2 n d e0 in
  let e1 := if 2 ^ 53 * b0 <=? a0 then e0 + 1 else e0 in
  let e := Z.max e1 (-1074) in
  let '(a, b) := scale2 n d e in
  (round_half_even a b, e).

(** Quotients of this magnitude or more round beyond the largest double:
    it is halfway between the largest double and [2^1024]. *)
Definition float_limit : Z := 2 ^ 1024 - 2 ^ 970.

Definition overflows (n d : Z) : bool := float_limit * d <=? n.

Definition float_of_mag (neg : bool) (n d : Z) : float :=
  if n =? 0 then (if neg then neg_zero else zero)
  else if overflows n d then (if neg then neg_infinity else infinity)
  else let '(m, e) := nearest_binary64 n d in
       match m with
       | Zpos p => FloatOps.SF2Prim (S754_finite neg p e)
       | _ => if neg then neg_zero else zero
       end.

Definition division_too_large : exn :=
  OverflowError "integer division result too large for a float".

(** [a / b] on two [int]s with [b <> 0]: the correctly rounded quotient,
    or [OverflowError] when it is too large for a float. *)
Definition int_truediv (a b : Z) : result float :=
  if overflows (Z.abs a) (Z.abs b)
  then Raise division_too_large
  else Ok (float_of_mag (xorb (a <? 0) (b <? 0)) (Z.abs a) (Z.abs b)).

(** *** [repr] of a float, which is what [f"{x}"] interpolates

    The shortest decimal string that reads back as the same double (the
    closest one to the double when several have that length), laid out in
    fixed notation for a decimal point position in [-3 .. 16] and in
    exponent notation otherwise. *)

Definition ge_pow10 (n d k : Z) : bool :=
  if 0 <=? k then 10 ^ k * d <=? n else d <=? n * 10 ^ (- k).

Fixpoint floor_log10_from (fuel : nat) (n d k : Z) : Z :=
  match fuel with
  | O => k
  | S fuel' => if ge_pow10 n d k then k else floor_log10_from fuel' n d (k - 1)
  end.

(** the [x] with [10^(x-1) <= n/d < 10^x] *)
Definition decimal_point (n d : Z) : Z :=
  let est := (Z.log2 n - Z.log2 d) * 30103 / 100000 in
  floor_log10_from 8 n d (est + 2) + 1.

Definition reads_back (f : float) (c x : Z) : bool :=
  let '(a, b) := if 0 <=? x then (c * 10 ^ x, 1) else (c, 10 ^ (- x)) in
  PrimFloat.eqb (float_of_mag false a b) f.

(** a [k]-digit integer [c] with [c * 10^(x-k)] reading back as [f] *)
Definition candidate (f : float) (n d x k : Z) : option Z :=
  let '(a, b) :=
    if 0 <=? k - x then (n * 10 ^ (k - x), d) else (n, d * 10 ^ (x - k)) in
  let lo := a / b in
  let hi := lo + 1 in
  match reads_back f lo (x - k), reads_back f hi (x - k) with
  | true, true =>
      match 2 * (a mod b) ?= b with
      | Lt => Some lo
      | Gt => Some hi
      | Eq => Some (if Z.even lo then lo else hi)
      end
  | true, false => Some lo
  | false, true => Some hi
  | false, false => None
  end.

Fixpoint shortest_from (fuel : nat) (f : float) (n d x k : Z) : Z * Z :=
  match fuel with
  | O => (n / d, k)
  | S fuel' =>
      match candidate f n d x k with
      | Some c => (c, k)
      | None => shortest_from fuel' f n d x (k + 1)
      end
  end.

Fixpoint strip_zeros (fuel : nat) (c : Z) : Z :=
  match fuel with
  | O => c
  | S fuel' =>
      if (c mod 10 =? 0) && negb (c =? 0) then strip_zeros fuel' (c / 10) else c
  end.

Fixpoint zeros (n : nat) : string :=
  match n with
  | O => ""
  | S n' => "0" +:+ zeros n'
  end.

Definition strlen (s : string) : Z := Z.of_nat (String.length s).

(** *** The limit on the conversion of an [int] to [str]

    From CPython 3.11 on (and in the security releases of 3.7 to 3.10),
    the conversion of an [int] to decimal text raises [ValueError] when
    the int has more than [sys.int_info.default_max_str_digits] digits,
    the sign not counted.  The program never changes that limit. *)
Definition int_max_str_digits : Z := 4300.

(** the number of decimal digits of [z] *)
Definition digits (z : Z) : Z := strlen (str_of_int (Z.abs z)).

Definition fits (z : Z) : bool := digits z <=? int_max_str_digits.

Definition int_too_long : exn :=
  ValueError ("Exceeds the limit (4300 digits) for integer string conversion; " +:+
              "use sys.set_int_max_str_digits() to increase the limit").

(** [f"{z}"] for an [int] *)
Definition format_int (z : Z) : result string :=
  if fits z then Ok (str_of_int z) else Raise int_too_long.

(** the decimal number of [n] digits, all of them 1 *)
Fixpoint repunit (n : nat) : Decimal.uint :=
  match n with
  | O => Decimal.Nil
  | S n' => Decimal.D1 (repunit n')
  end.

Definition format_short (digits : string) (decpt : Z) : string :=
  let n := strlen digits in
  if (decpt <=? -4) || (16 <? decpt) then
    let e := decpt - 1 in
    let mant :=
      if n =? 1 then digits
      else String.substring 0 1 digits +:+ "." +:+
           String.substring 1 (String.length digits - 1) digits in
    mant +:+ "e" +:+ (if e <? 0 then "-" else "+") +:+
    (if Z.abs e <? 10 then "0" else "") +:+ str_of_int (Z.abs e)
  else if decpt <=? 0 then "0." +:+ zeros (Z.to_nat (- decpt)) +:+ digits
  else if decpt <? n then
    String.substring 0 (Z.to_nat decpt) digits +:+ "." +:+
    String.substring (Z.to_nat decpt) (Z.to_nat (n - decpt)) digits
  else digits +:+ zeros (Z.to_nat (decpt - n)) +:+ ".0".

Definition repr_float (f : float) : string :=
  match FloatOps.Prim2SF f with
  | S754_nan => "nan"
  | S754_infinity s => if s then "-inf" else "inf"
  | S754_zero s => if s then "-0.0" else "0.0"
  | S754_finite s m e =>
      let '(n, d) := scale2 (Zpos m) 1 (- e) in
      let x := decimal_point n d in
      let '(c, k) := shortest_from 17 (abs f) n d x 1 in
      let width := strlen (str_of_int c) in
      (if s then "-" else "") +:+
      format_short (str_of_int (strip_zeros 17 c)) (x + (width - k))
  end.

(** [key in d] and [d[key]] on a dict literal, kept in insertion order *)
Fixpoint dict_get {V} (d : list (string * V)) (key : string) : option V :=
  match d with
  | [] => None
  | (k, v) :: rest => if String.eqb k key then Some v else dict_get rest key
  end.

Definition dict_keys {V} (d : list (string * V)) : list string := map fst d.

End Py.

(** ** The preset catalog *)

(** One entry of ["eq_bands"]: [{"freq": ..., "gain": ...}]. *)
Record band := Band { freq : Z; gain : Z }.

(** A preset dict.  The fields carry the types every catalog entry gives
    them: integers, except ["noise_reduction"], a float.  (A dict whose
    values have other types, which only [custom_params] could bring in,
    is outside this model.) *)
Record Preset := {
  name : string;
  description : string;
  highpass : Z;
  lowpass : Z;
  noise_reduction : float;
  dynamic_boost : Z;
  voice_emphasis : Z;
  eq_bands : list band;
}.

Definition PRESETS : list (string * Preset) := [
  ("whisper", {|
     name := "Whisper Mode";
     description := "Optimized for whispers, minimal white noise (30-3500 Hz)";
     highpass := 30;
     lowpass := 3500;
     noise_reduction := 0.5;
     dynamic_boost := 8;
     voice_emphasis := 4;
     eq_bands := [Band 100 (-3); Band 300 2; Band 1000 3; Band 2000 2] |});
  ("breath", {|
     name := "Breath Detection";
     description := "Optimized for breathing, minimal processing (100-2000 Hz)";
     highpass := 100;
     lowpass := 2000;
     noise_reduction := 0.3;
     dynamic_boost := 12;
     voice_emphasis := 2;
     eq_bands := [Band 200 2; Band 500 3; Band 1000 2] |});
  ("vocal", {|
     name := "Vocal Isolation";
     description := "Optimized for vocal sounds, balanced processing (80-8000 Hz)";
     highpass := 80;
     lowpass := 8000;
     noise_reduction := 0.4;
     dynamic_boost := 6;
     voice_emphasis := 5;
     eq_bands := [Band 150 1; Band 400 3; Band 1000 4; Band 2000 3] |});
  ("tv_suppress", {|
     name := "TV Suppression";
     description := "TV background suppression, minimal artifacts (200-4000 Hz)";
     highpass := 200;
     lowpass := 4000;
     noise_reduction := 0.6;
     dynamic_boost := 10;
     voice_emphasis := 6;
     eq_bands := [Band 60 (-8); Band 120 (-5); Band 500 4; Band 1500 5; Band 3000 3] |});
  ("clean_whisper", {|
     name := "Clean Whisper";
     description := "Minimal processing for very clean whisper enhancement";
     highpass := 50;
     lowpass := 4000;
     noise_reduction := 0.2;
     dynamic_boost := 4;
     voice_emphasis := 2;
     eq_bands := [Band 250 2; Band 500 3; Band 1000 2] |});
  ("gentle_enhance", {|
     name := "Gentle Enhancement";
     description := "Minimal processing for slight audio improvement";
     highpass := 40;
     lowpass := 6000;
     noise_reduction := 0.1;
     dynamic_boost := 2;
     voice_emphasis := 1;
     eq_bands := [Band 300 1; Band 1000 2] |})
].

(** ** The filter-chain builder *)

(** [custom_params]: a dict holding a subset of the preset's keys. *)
Record Overrides := {
  o_name : option string;
  o_description : option string;
  o_highpass : option Z;
  o_lowpass : option Z;
  o_noise_reduction : option float;
  o_dynamic_boost : option Z;
  o_voice_emphasis : option Z;
  o_eq_bands : option (list band);
}.

Definition no_overrides : Overrides :=
  {| o_name := None; o_description := None; o_highpass := None; o_lowpass := None;
     o_noise_reduction := None; o_dynamic_boost := None; o_voice_emphasis := None;
     o_eq_bands := None |}.

(** [bool(custom_params)] for a dict: it has at least one key *)
Definition overrides_truthy (o : Overrides) : bool :=
  bool_decide (is_Some (o_name o)) || bool_decide (is_Some (o_description o))
  || bool_decide (is_Some (o_highpass o)) || bool_decide (is_Some (o_lowpass o))
  || bool_decide (is_Some (o_noise_reduction o))
  || bool_decide (is_Some (o_dynamic_boost o))
  || bool_decide (is_Some (o_voice_emphasis o))
  || bool_decide (is_Some (o_eq_bands o)).

(** [preset.update(custom_params)], as a value *)
Definition update (preset : Preset) (o : Overrides) : Preset :=
  {| name := default (name preset) (o_name o);
     description := default (description preset) (o_description o);
     highpass := default (highpass preset) (o_highpass o);
     lowpass := default (lowpass preset) (o_lowpass o);
     noise_reduction := default (noise_reduction preset) (o_noise_reduction o);
     dynamic_boost := default (dynamic_boost preset) (o_dynamic_boost o);
     voice_emphasis := default (voice_emphasis preset) (o_voice_emphasis o);
     eq_bands := default (eq_bands preset) (o_eq_bands o) |}.

(** One element of [filters]: which ffmpeg filter is appended and with
    which computed arguments. *)
Inductive FilterStage :=
| Highpass (f : Z)
| Lowpass (f : Z)
| Afftdn (nr : float)
| Acompressor (threshold ratio : float)
| Equalizer (f : Z) (limited_gain : Z)
| VoiceEqualizer (voice_freq : Z) (voice_gain : Z)
| Alimiter
| Volume.

(** The text of the f-string appended for each stage.  The stages that
    [build_stages] returns hold only ints that [Py.format_int] accepts, so
    that [Py.str_of_int] is their text. *)
Definition render (s : FilterStage) : string :=
  match s with
  | Highpass f => "highpass=f=" +:+ Py.str_of_int f
  | Lowpass f => "lowpass=f=" +:+ Py.str_of_int f
  | Afftdn nr => "afftdn=nr=" +:+ Py.repr_float nr +:+ ":nf=-20:nt=w"
  | Acompressor threshold ratio =>
      "acompressor=threshold=" +:+ Py.repr_float threshold +:+ "dB:ratio=" +:+
      Py.repr_float ratio +:+ ":attack=10:release=100:makeup=2:knee=2"
  | Equalizer f g =>
      "equalizer=f=" +:+ Py.str_of_int f +:+ ":t=o:g=" +:+ Py.str_of_int g
  | VoiceEqualizer f g =>
      "equalizer=f=" +:+ Py.str_of_int f +:+ ":t=o:g=" +:+ Py.str_of_int g +:+ ":w=800"
  | Alimiter => "alimiter=level_in=1:level_out=0.95:limit=0.95"
  | Volume => "volume=1.2"
  end.

(** Steps 1 and 2: a stage is appended when the cutoff is greater than
    zero, and its f-string formats that int. *)
Definition cutoff_stage (cutoff : Z) (stage : Z → FilterStage)
    : result (list FilterStage) :=
  if 0 <? cutoff then _ ← Py.format_int cutoff; Ok [stage cutoff] else Ok [].

(** Step 4 of the builder: the two quotients are floats, or the division
    raises. *)
Definition compressor_stage (preset : Preset) : result (list FilterStage) :=
  if 0 <? dynamic_boost preset then
    q10 ← Py.int_truediv (dynamic_boost preset) 10;
    let ratio := (2 + q10)%float in
    q4 ← Py.int_truediv (dynamic_boost preset) 4;
    let threshold := (-25 + q4)%float in
    Ok [Acompressor threshold ratio]
  else Ok [].

Definition limit_gain (g : Z) : Z := Z.max (-10) (Z.min 10 g).

Definition equalizer_stage (b : band) : FilterStage :=
  Equalizer (freq b) (limit_gain (gain b)).

(** Step 5: one stage per band, in order.  Each f-string formats the
    band's frequency, and the limited gain, an int from -10 to 10. *)
Fixpoint equalizer_stages (bands : list band) : result (list FilterStage) :=
  match bands with
  | [] => Ok []
  | b :: rest =>
      _ ← Py.format_int (freq b);
      _ ← Py.format_int (limit_gain (gain b));
      stages ← equalizer_stages rest;
      Ok (equalizer_stage b :: stages)
  end.

Definition is_band_stage (s : FilterStage) : bool :=
  match s with Equalizer _ _ => true | _ => false end.

Definition is_compressor (s : FilterStage) : bool :=
  match s with Acompressor _ _ => true | _ => false end.

Definition is_closing_stage (s : FilterStage) : bool :=
  match s with Alimiter | Volume => true | _ => false end.

(** The list [filters] as it stands before the final [",".join]. *)
Definition build_stages (preset : Preset) : result (list FilterStage) :=
  hp ← cutoff_stage (highpass preset) Highpass;
  lp ← cutoff_stage (lowpass preset) Lowpass;
  let nr :=
    if (0 <? noise_reduction preset)%float then [Afftdn (noise_reduction preset)] else [] in
  comp ← compressor_stage preset;
  eq ← equalizer_stages (eq_bands preset);
  ve ← (if 0 <? voice_emphasis preset
        then let voice_gain := Z.min 6 (voice_emphasis preset) in
             _ ← Py.format_int 1000;
             _ ← Py.format_int voice_gain;
             Ok [VoiceEqualizer 1000 voice_gain]
        else Ok []);
  Ok (hp ++ lp ++ nr ++ comp ++ eq ++ ve ++ [Alimiter; Volume]).

(** The stages [filters] holds when step 7 is reached, for the stages
    [comp] that step 4 appended. *)
Definition optional_stages (preset : Preset) (comp : list FilterStage) : list FilterStage :=
  (if 0 <? highpass preset then [Highpass (highpass preset)] else []) ++
  (if 0 <? lowpass preset then [Lowpass (lowpass preset)] else []) ++
  (if (0 <? noise_reduction preset)%float then [Afftdn (noise_reduction preset)] else []) ++
  comp ++
  map equalizer_stage (eq_bands preset) ++
  (if 0 <? voice_emphasis preset
   then [VoiceEqualizer 1000 (Z.min 6 (voice_emphasis preset))] else []).

(** A preset none of whose stages is triggered. *)
Definition silent_preset : Preset :=
  {| name := "Silent"; description := "every stage off";
     highpass := 0; lowpass := 0; noise_reduction := 0;
     dynamic_boost := 0; voice_emphasis := 0; eq_bands := [] |}.

(** A preset whose bands ask for gains beyond the limits. *)
Definition loud_preset : Preset :=
  {| name := "Loud"; description := "gains out of range";
     highpass := 0; lowpass := 0; noise_reduction := 0;
     dynamic_boost := 8; voice_emphasis := 0;
     eq_bands := [Band 100 25; Band 200 (-40); Band 300 7] |}.

Definition closing_text : string :=
  "alimiter=level_in=1:level_out=0.95:limit=0.95,volume=1.2".

(** The dict the builder works on: a copy of the catalog entry, updated
    with [custom_params] when that is a non-empty dict. *)
Definition merged_preset (base : Preset) (custom_params : option Overrides) : Preset :=
  match custom_params with
  | Some o => if overrides_truthy o then update base o else base
  | None => base
  end.

Definition build_ffmpeg_filter (preset_name : string)
    (custom_params : option Overrides) : result string :=
  match Py.dict_get PRESETS preset_name with
  | None => Raise (ValueError ("Unknown preset: " +:+ preset_name))
  | Some base =>
      filters ← build_stages (merged_preset base custom_params);
      Ok (Py.join "," (map render filters))
  end.

(** [build_ffmpeg_filter] on values, under a name that stays visible next
    to the one over the store. *)
Definition build_ffmpeg_filter_on_values := build_ffmpeg_filter.

(** ** The builder over an object store

    [PRESETS[preset_name].copy()] is a shallow copy: the new dict shares
    the ["eq_bands"] list, and the band dicts in it, with the catalog entry.
    [preset.update(custom_params)] then writes into the new dict in place.
    Here objects live in a heap and are named by locations, so that the
    sharing is visible. *)

Module Heap.

Definition loc := positive.

(** a preset dict: immediate values, and a reference for ["eq_bands"] *)
Record dict := {
  d_name : string;
  d_description : string;
  d_highpass : Z;
  d_lowpass : Z;
  d_noise_reduction : float;
  d_dynamic_boost : Z;
  d_voice_emphasis : Z;
  d_eq_bands : loc;
}.

Inductive obj :=
| OCatalog (entries : list (string * loc))
| ODict (d : dict)
| OList (items : list loc)
| OBand (b : band).

(** The module global [PRESETS] names a location; the function never
    rebinds it. *)
Record store := {
  heap : gmap loc obj;
  PRESETS_ref : loc;
}.

(** [custom_params] as the caller built it: ["eq_bands"], when present,
    refers to a list object of the caller. *)
Record overrides := {
  c_name : option string;
  c_description : option string;
  c_highpass : option Z;
  c_lowpass : option Z;
  c_noise_reduction : option float;
  c_dynamic_boost : option Z;
  c_voice_emphasis : option Z;
  c_eq_bands : option loc;
}.

Definition truthy (o : overrides) : bool :=
  bool_decide (is_Some (c_name o)) || bool_decide (is_Some (c_description o))
  || bool_decide (is_Some (c_highpass o)) || bool_decide (is_Some (c_lowpass o))
  || bool_decide (is_Some (c_noise_reduction o))
  || bool_decide (is_Some (c_dynamic_boost o))
  || bool_decide (is_Some (c_voice_emphasis o))
  || bool_decide (is_Some (c_eq_bands o)).

Definition alloc (h : gmap loc obj) (o : obj) : loc * gmap loc obj :=
  let l := fresh (dom h) in (l, <[l := o]> h).

(** the dict after [update], key by key *)
Definition updated (d : dict) (o : overrides) : dict :=
  {| d_name := default (d_name d) (c_name o);
     d_description := default (d_description d) (c_description o);
     d_highpass := default (d_highpass d) (c_highpass o);
     d_lowpass := default (d_lowpass d) (c_lowpass o);
     d_noise_reduction := default (d_noise_reduction d) (c_noise_reduction o);
     d_dynamic_boost := default (d_dynamic_boost d) (c_dynamic_boost o);
     d_voice_emphasis := default (d_voice_emphasis d) (c_voice_emphasis o);
     d_eq_bands := default (d_eq_bands d) (c_eq_bands o) |}.

Definition read_band (h : gmap loc obj) (l : loc) : option band :=
  match h !! l with
  | Some (OBand b) => Some b
  | _ => None
  end.

Definition read_bands (h : gmap loc obj) (l : loc) : option (list band) :=
  match h !! l with
  | Some (OList items) => mapM (read_band h) items
  | _ => None
  end.

(** every [preset[...]] the builder evaluates, read through the heap *)
Definition read_dict (h : gmap loc obj) (d : dict) : option Preset :=
  bands ← read_bands h (d_eq_bands d);
  Some {| name := d_name d; description := d_description d;
          highpass := d_highpass d; lowpass := d_lowpass d;
          noise_reduction := d_noise_reduction d;
          dynamic_boost := d_dynamic_boost d;
          voice_emphasis := d_voice_emphasis d;
          eq_bands := bands |}.

Definition read_preset (h : gmap loc obj) (l : loc) : option Preset :=
  match h !! l with
  | Some (ODict d) => read_dict h d
  | _ => None
  end.

Definition read_entry (h : gmap loc obj) (e : string * loc) : option (string * Preset) :=
  p ← read_preset h e.2; Some (e.1, p).

(** the whole catalog as a value *)
Definition catalog_value (s : store) : option (list (string * Preset)) :=
  match heap s !! PRESETS_ref s with
  | Some (OCatalog entries) => mapM (read_entry (heap s)) entries
  | _ => None
  end.

(** The function over the store.  The second component is [None] when a
    reference does not lead to an object of the expected class, which no
    store built by Python code exhibits (see [build_ffmpeg_filter_runs]). *)
Definition build_ffmpeg_filter (s : store) (preset_name : string)
    (custom_params : option overrides) : store * option (result string) :=
  match heap s !! PRESETS_ref s with
  | Some (OCatalog entries) =>
      match Py.dict_get entries preset_name with
      | None => (s, Some (Raise (ValueError ("Unknown preset: " +:+ preset_name))))
      | Some entry =>
          match heap s !! entry with
          | Some (ODict d) =>
              (* preset = PRESETS[preset_name].copy() *)
              let '(preset, h1) := alloc (heap s) (ODict d) in
              (* if custom_params: preset.update(custom_params) *)
              let h2 :=
                match custom_params with
                | Some o => if truthy o then <[preset := ODict (updated d o)]> h1 else h1
                | None => h1
                end in
              ({| heap := h2; PRESETS_ref := PRESETS_ref s |},
               p ← read_preset h2 preset;
               Some (filters ← build_stages p;
                     Ok (Py.join "," (map render filters))))
          | _ => (s, None)
          end
      end
  | _ => (s, None)
  end.

(** *** The store after the module's top level has run *)

Fixpoint alloc_bands (h : gmap loc obj) (bs : list band) : list loc * gmap loc obj :=
  match bs with
  | [] => ([], h)
  | b :: rest =>
      let '(l, h1) := alloc h (OBand b) in
      let '(ls, h2) := alloc_bands h1 rest in
      (l :: ls, h2)
  end.

Definition alloc_preset (h : gmap loc obj) (p : Preset) : loc * gmap loc obj :=
  let '(items, h1) := alloc_bands h (eq_bands p) in
  let '(l, h2) := alloc h1 (OList items) in
  alloc h2 (ODict {| d_name := name p; d_description := description p;
                     d_highpass := highpass p; d_lowpass := lowpass p;
                     d_noise_reduction := noise_reduction p;
                     d_dynamic_boost := dynamic_boost p;
                     d_voice_emphasis := voice_emphasis p;
                     d_eq_bands := l |}).

Fixpoint alloc_entries (h : gmap loc obj) (c : list (string * Preset))
    : list (string * loc) * gmap loc obj :=
  match c with
  | [] => ([], h)
  | (k, p) :: rest =>
      let '(l, h1) := alloc_preset h p in
      let '(es, h2) := alloc_entries h1 rest in
      ((k, l) :: es, h2)
  end.

(** the value a caller's [custom_params] stands for *)
Definition overrides_value (h : gmap loc obj) (o : overrides) : option Overrides :=
  match c_eq_bands o with
  | Some l =>
      bands ← read_bands h l;
      Some {| o_name := c_name o;
              o_description := c_description o;
              o_highpass := c_highpass o;
              o_lowpass := c_lowpass o;
              o_noise_reduction := c_noise_reduction o;
              o_dynamic_boost := c_dynamic_boost o;
              o_voice_emphasis := c_voice_emphasis o;
              o_eq_bands := Some bands |}
  | None =>
      Some {| o_name := c_name o;
              o_description := c_description o;
              o_highpass := c_highpass o;
              o_lowpass := c_lowpass o;
              o_noise_reduction := c_noise_reduction o;
              o_dynamic_boost := c_dynamic_boost o;
              o_voice_emphasis := c_voice_emphasis o;
              o_eq_bands := None |}
  end.

Definition custom_value (h : gmap loc obj) (custom_params : option overrides)
    : option (option Overrides) :=
  match custom_params with
  | Some o => o' ← overrides_value h o; Some (Some o')
  | None => Some None
  end.

(** the dict that [preset] names when the chain is built *)
Definition merged (d : dict) (custom_params : option overrides) : dict :=
  match custom_params with
  | Some o => if truthy o then updated d o else d
  | None => d
  end.

(** a request overriding two keys of a preset *)
Definition sample_overrides : overrides :=
  {| c_name := None; c_description := None; c_highpass := Some 120;
     c_lowpass := None; c_noise_reduction := None; c_dynamic_boost := Some 20;
     c_voice_emphasis := None; c_eq_bands := None |}.

Definition initial_store : store :=
  let '(entries, h) := alloc_entries ∅ PRESETS in
  let '(l, h') := alloc h (OCatalog entries) in
  {| heap := h'; PRESETS_ref := l |}.

End Heap.

(** ** Scratch file names *)

Module Paths.

(** [datetime.now()] *)
Record datetime := {
  year : Z; month : Z; day : Z;
  hour : Z; minute : Z; second : Z;
  microsecond : Z;
}.

(** a decimal field of [strftime], zero-padded to [width] *)
Definition padded (width : nat) (z : Z) : string :=
  let s := Py.str_of_int z in
  Py.zeros (width - String.length s) +:+ s.

(** [t.strftime("%Y%m%d_%H%M%S")] *)
Definition strftime (t : datetime) : string :=
  padded 4 (year t) +:+ padded 2 (month t) +:+ padded 2 (day t) +:+ "_" +:+
  padded 2 (hour t) +:+ padded 2 (minute t) +:+ padded 2 (second t).

(** [s.split("/")] *)
Fixpoint split_slash (s : string) : list string :=
  match s with
  | EmptyString => [""]
  | String c rest =>
      if Ascii.eqb c "/"%char then "" :: split_slash rest
      else match split_slash rest with
           | [] => [String c ""]
           | p :: ps => String c p :: ps
           end
  end.

Definition kept (part : string) : bool :=
  negb (String.eqb part "") && negb (String.eqb part ".").

(** the parts [pathlib] keeps of a segment: empty parts and ["."] are
    dropped, [".."] is kept *)
Definition parts (segment : string) : list string :=
  List.filter kept (split_slash segment).

(** An absolute POSIX path: its parts below the root. *)
Definition Path := list string.

(** [p / segment]; an absolute segment replaces [p] *)
Definition joinpath (p : Path) (segment : string) : Path :=
  match segment with
  | String "/"%char _ => parts segment
  | _ => p ++ parts segment
  end.

(** [str(p)] *)
Definition str (p : Path) : string := "/" +:+ Py.join "/" p.

Definition TEMP_DIR : Path := parts "/tmp/audio_processing".

Definition input_path (timestamp filename : string) : Path :=
  joinpath TEMP_DIR ("input_" +:+ timestamp +:+ "_" +:+ filename).

Definition output_path (timestamp : string) : Path :=
  joinpath TEMP_DIR ("output_" +:+ timestamp +:+ ".wav").

(** Where a path leads once its [".."] parts are followed (lexically, as
    [os.path.normpath] does): each [".."] cancels the part before it. *)
Fixpoint resolve_onto (above : list string) (p : Path) : Path :=
  match p with
  | [] => rev above
  | part :: rest =>
      if String.eqb part ".." then resolve_onto (tail above) rest
      else resolve_onto (part :: above) rest
  end.

Definition resolve (p : Path) : Path := resolve_onto [] p.

Fixpoint has_slash (s : string) : bool :=
  match s with
  | EmptyString => false
  | String c rest => Ascii.eqb c "/"%char || has_slash rest
  end.

(** Two requests of the same second. *)
Definition first_arrival : datetime :=
  {| year := 2025; month := 3; day := 1; hour := 12; minute := 0; second := 0;
     microsecond := 1 |}.

Definition second_arrival : datetime :=
  {| year := 2025; month := 3; day := 1; hour := 12; minute := 0; second := 0;
     microsecond := 500000 |}.

(** A file name as a client may send it in the multipart header. *)
Definition climbing_filename : string := "/../../etc/passwd".

(** [p] leads to the directory [dir] or below it *)
Definition inside (dir p : Path) : bool :=
  bool_decide (dir `prefix_of` resolve p).

End Paths.

(** ** The request handler *)

Module Handler.
Import Paths.

(** The scratch file system: the content of each existing file, by the
    path it was opened with (two spellings of one location, as [".."]
    parts or links allow, count as two files here). *)
Abbreviation filesystem := (gmap Path string).

(** What the operating system refuses with: a missing file or program,
    or anything else. *)
Inductive os_error :=
| NotFound (msg : string)
| Refused (msg : string).

Definition exn_of_os_error (e : os_error) : exn :=
  match e with
  | NotFound msg => FileNotFoundError msg
  | Refused msg => OSError msg
  end.

(** What [subprocess.run(argv, capture_output=True, text=True)] did. *)
Inductive completed :=
| Failed_to_start (e : os_error)
| CompletedProcess (returncode : Z) (stdout stderr : string).

Inductive event := Run (argv : list string) (outcome : completed).

(** What the model leaves to the environment: the child processes (their
    outcome and what they do to the file system), whether a file can be
    created or removed, and [json.loads] with the lookup of
    [["format"]["duration"]] and its conversion by [float], which gives
    the duration or raises with some message. *)
Record runtime := {
  run : list string → filesystem → completed * filesystem;
  open_error : Path → filesystem → option os_error;
  unlink_error : Path → filesystem → option os_error;
  json_duration : string → string + float;
}.

(** Computations: they may raise, change the file system, and start
    child processes. *)
Definition M (A : Type) : Type := filesystem → result A * filesystem * list event.

Definition ret {A} (a : A) : M A := λ fs, (Ok a, fs, []).
Definition raise {A} (e : exn) : M A := λ fs, (Raise e, fs, []).
Definition bind {A B} (m : M A) (k : A → M B) : M B := λ fs,
  match m fs with
  | (Ok a, fs1, evs1) => let '(r, fs2, evs2) := k a fs1 in (r, fs2, evs1 ++ evs2)
  | (Raise e, fs1, evs1) => (Raise e, fs1, evs1)
  end.
Definition lift {A} (r : result A) : M A := λ fs, (r, fs, []).

(** [try: m  except <classes matched by handles> as e: handler e] *)
Definition try_except {A} (m : M A) (handles : exn → bool) (handler : exn → M A) : M A :=
  λ fs,
  match m fs with
  | (Raise e, fs1, evs1) =>
      if handles e
      then let '(r, fs2, evs2) := handler e fs1 in (r, fs2, evs1 ++ evs2)
      else (Raise e, fs1, evs1)
  | done => done
  end.

(** [try: m  finally: cleanup], for a [cleanup] that does not raise *)
Definition try_finally {A} (m : M A) (cleanup : M unit) : M A := λ fs,
  let '(r, fs1, evs1) := m fs in
  let '(_, fs2, evs2) := cleanup fs1 in
  (r, fs2, evs1 ++ evs2).

#[global] Instance M_ret : MRet M := @ret.
#[global] Instance M_bind : MBind M := λ A B k m, bind m k.
#[global] Instance M_throw : MThrow exn M := @raise.

(** The dict [process_audio_file] returns.  Its ["processing_time"], a
    difference of two clock readings that no caller looks at, is left
    out. *)
Inductive outcome :=
| Success (input_duration : float) (output_size : Z)
          (preset_used filter_chain : string)
| Failure (error : string).

Record FileResponse := {
  path : Path;
  media_type : string;
  filename : string;
}.

Definition info_cmd (input : Path) : list string :=
  ["ffprobe"; "-v"; "quiet"; "-print_format"; "json";
   "-show_format"; "-show_streams"; str input].

Definition cmd (input : Path) (filter_chain : string) (output : Path) : list string :=
  ["ffmpeg"; "-y"; "-i"; str input;
   "-af"; filter_chain;
   "-c:a"; "pcm_s16le";
   "-ar"; "44100";
   "-ac"; "2";
   str output].

Definition version_cmd : list string := ["ffmpeg"; "-version"].

Definition any_exception (e : exn) : bool := true.

Definition is_HTTPException (e : exn) : bool :=
  match e with HTTPException _ _ => true | _ => false end.

(** [except (subprocess.CalledProcessError, FileNotFoundError)] *)
Definition not_installed (e : exn) : bool :=
  match e with
  | CalledProcessError _ | FileNotFoundError _ => true
  | _ => false
  end.

Section WithRuntime.
Variable rt : runtime.

Definition subprocess_run (argv : list string) (check : bool)
    : M (Z * string * string) := λ fs,
  let '(outcome, fs1) := run rt argv fs in
  match outcome with
  | Failed_to_start e => (Raise (exn_of_os_error e), fs1, [Run argv outcome])
  | CompletedProcess returncode stdout stderr =>
      if check && negb (returncode =? 0)
      then (Raise (CalledProcessError
                     ("Command returned non-zero exit status " +:+
                      Py.str_of_int returncode)),
            fs1, [Run argv outcome])
      else (Ok (returncode, stdout, stderr), fs1, [Run argv outcome])
  end.

(** [with open(p, "wb") as f: f.write(content)] *)
Definition write_file (p : Path) (content : string) : M unit := λ fs,
  match open_error rt p fs with
  | Some e => (Raise (exn_of_os_error e), fs, [])
  | None => (Ok (), <[p := content]> fs, [])
  end.

(** [p.exists()] where it answers.  [pathlib] answers [False] when
    [stat] finds no such file or directory, and lets any other [OSError]
    pass, such as the one for a name of more than 255 bytes; that case is
    not modelled here, and the statements on the [finally] block say when
    it is excluded ([Scenarios.exists_answers]). *)
Definition exists_ (p : Path) : M bool := λ fs,
  (Ok (bool_decide (is_Some (fs !! p))), fs, []).

(** [p.stat().st_size] *)
Definition st_size (p : Path) : M Z := λ fs,
  match fs !! p with
  | Some content => (Ok (Py.strlen content), fs, [])
  | None => (Raise (FileNotFoundError ("No such file or directory: " +:+ str p)), fs, [])
  end.

(** [p.unlink()] *)
Definition unlink (p : Path) : M unit := λ fs,
  match fs !! p with
  | None => (Raise (FileNotFoundError ("No such file or directory: " +:+ str p)), fs, [])
  | Some _ =>
      match unlink_error rt p fs with
      | Some e => (Raise (exn_of_os_error e), fs, [])
      | None => (Ok (), delete p fs, [])
      end
  end.

(** [json.loads(stdout)["format"]["duration"]] as a float *)
Definition read_duration (stdout : string) : M float :=
  match json_duration rt stdout with
  | inl msg => raise (Exception msg)
  | inr duration => ret duration
  end.

Definition process_audio_file (input output : Path) (preset_name : string)
    (custom_params : option Overrides) : M outcome :=
  try_except
    ('(returncode, stdout, stderr) ← subprocess_run (info_cmd input) false;
     (if negb (returncode =? 0)
      then raise (Exception ("Failed to analyze input file: " +:+ stderr))
      else ret ());;
     duration ← read_duration stdout;
     filter_chain ← lift (build_ffmpeg_filter preset_name custom_params);
     '(returncode, stdout, stderr) ←
       subprocess_run (cmd input filter_chain output) false;
     (if negb (returncode =? 0)
      then raise (Exception ("FFmpeg processing failed: " +:+ stderr))
      else ret ());;
     created ← exists_ output;
     (if negb created
      then raise (Exception ("Output file was not created: " +:+ str output))
      else ret ());;
     output_size ← st_size output;
     ret (Success duration output_size preset_name filter_chain))
    any_exception
    (λ e, ret (Failure (Py.str_of_exn e))).

(** the [try] block of [process_audio] with its two [except] clauses:
    an [HTTPException] passes through, any other exception becomes one *)
Definition process_audio_try (input output : Path)
    (file_filename file_content preset : string) : M FileResponse :=
  try_except
    (write_file input file_content;;
     _ ← st_size input;
     try_except
       (_ ← subprocess_run version_cmd true; ret ())
       not_installed
       (λ _, raise (HTTPException 500 "FFmpeg is not installed or not working"));;
     result ← process_audio_file input output preset None;
     match result with
     | Failure error => raise (HTTPException 500 error)
     | Success _ _ _ _ =>
         created ← exists_ output;
         (if negb created
          then raise (HTTPException 500 "Output file was not created")
          else ret ());;
         size ← st_size output;
         (if size =? 0
          then raise (HTTPException 500 "Output file is empty")
          else ret ());;
         _ ← st_size output;
         ret {| path := output; media_type := "audio/wav";
                filename := "processed_" +:+ file_filename |}
     end)
    (λ e, negb (is_HTTPException e))
    (λ e, raise (HTTPException 500 (Py.str_of_exn e))).

(** the [finally] block: the unlink is attempted when the file exists,
    and whatever it raises is dropped.  The check [input_path.exists()]
    stands outside the inner [try]: where it raises (see [exists_]) the
    block raises too, which this model does not cover. *)
Definition cleanup (input : Path) : M unit :=
  present ← exists_ input;
  if present : bool
  then try_except (unlink input) any_exception (λ _, ret ())
  else ret ().

(** The file system the [finally] block leaves: the input is gone when
    it existed and its removal was not refused. *)
Definition cleaned (input : Path) (fs : filesystem) : filesystem :=
  match fs !! input with
  | Some _ =>
      match unlink_error rt input fs with
      | Some _ => fs
      | None => delete input fs
      end
  | None => fs
  end.

Definition process_audio (now : datetime) (file_filename file_content preset : string)
    : M FileResponse :=
  let timestamp := strftime now in
  let input := input_path timestamp file_filename in
  let output := output_path timestamp in
  try_finally
    (process_audio_try input output file_filename file_content preset)
    (cleanup input).

End WithRuntime.

(** the event is a run of the transform command [cmd] *)
Definition is_transform_run (ev : event) : bool :=
  match ev with
  | Run ("ffmpeg" :: "-y" :: _) _ => true
  | _ => false
  end.

(** [needle in haystack] *)
Fixpoint contains (needle haystack : string) : bool :=
  String.prefix needle haystack ||
  match haystack with
  | EmptyString => false
  | String _ rest => contains needle rest
  end.


(** *** Sample environments

    Both tools are installed and the probe succeeds; the transform exits
    with [returncode] and [stderr] and leaves [written] (if anything) at
    [output]. *)
Definition tools (output : Path) (returncode : Z) (stderr : string)
    (written : option string) : runtime :=
  {| run := λ argv fs,
       match argv with
       | "ffmpeg" :: "-version" :: _ =>
           (CompletedProcess 0 "ffmpeg version 6.1" "", fs)
       | "ffprobe" :: _ => (CompletedProcess 0 "{format: {duration: 1.5}}" "", fs)
       | "ffmpeg" :: _ =>
           (CompletedProcess returncode "" stderr,
            match written with
            | Some data => <[output := data]> fs
            | None => fs
            end)
       | _ => (Failed_to_start (NotFound "No such file or directory"), fs)
       end;
     open_error := λ _ _, None;
     unlink_error := λ _ _, None;
     json_duration := λ _, inr 1.5%float |}.

Definition sample_output : Path := output_path (strftime first_arrival).
Definition sample_input : Path := input_path (strftime first_arrival) "evidence.wav".

Definition healthy : runtime := tools sample_output 0 "" (Some "RIFF-WAVE-data").
Definition silent : runtime := tools sample_output 0 "moov atom not found" None.

End Handler.

(** ** Vocabulary for further properties of the chain *)

(** The step of the builder that appends a stage. *)
Definition stage_rank (s : FilterStage) : nat :=
  match s with
  | Highpass _ => 1
  | Lowpass _ => 2
  | Afftdn _ => 3
  | Acompressor _ _ => 4
  | Equalizer _ _ => 5
  | VoiceEqualizer _ _ => 6
  | Alimiter => 7
  | Volume => 8
  end.

Definition is_highpass (s : FilterStage) : bool :=
  match s with Highpass _ => true | _ => false end.

Definition is_lowpass (s : FilterStage) : bool :=
  match s with Lowpass _ => true | _ => false end.

Definition is_afftdn (s : FilterStage) : bool :=
  match s with Afftdn _ => true | _ => false end.

Definition is_voice_stage (s : FilterStage) : bool :=
  match s with VoiceEqualizer _ _ => true | _ => false end.

Definition count_if (b : bool) : nat := if b then 1 else 0.

(** The ints that the chain's text holds can be formatted: a cutoff that
    is used, and each band's frequency. *)
Definition cutoff_fits (cutoff : Z) : bool := negb (0 <? cutoff) || Py.fits cutoff.

Definition cutoffs_fit (preset : Preset) : bool :=
  cutoff_fits (highpass preset) && cutoff_fits (lowpass preset).

Definition bands_fit (preset : Preset) : bool :=
  forallb (λ b, Py.fits (freq b)) (eq_bands preset).

Definition printable (preset : Preset) : bool :=
  cutoffs_fit preset && bands_fit preset.

(** An int of 4301 digits. *)
Definition overlong : Z := Z.of_uint (Py.repunit 4301).

(** Overrides with a band at an [overlong] frequency. *)
Definition overlong_band : Overrides :=
  {| o_name := None; o_description := None; o_highpass := None; o_lowpass := None;
     o_noise_reduction := None; o_dynamic_boost := None; o_voice_emphasis := None;
     o_eq_bands := Some [Band overlong 3] |}.

(** Overrides with a boost whose quotient by 4 is beyond the floats. *)
Definition overflowing_boost : Overrides :=
  {| o_name := None; o_description := None; o_highpass := None; o_lowpass := None;
     o_noise_reduction := None; o_dynamic_boost := Some (4 * Py.float_limit);
     o_voice_emphasis := None; o_eq_bands := None |}.

(** [custom_params] holds each of the six keys the builder reads. *)
Definition tuning_complete (o : Overrides) : bool :=
  bool_decide (is_Some (o_highpass o)) && bool_decide (is_Some (o_lowpass o))
  && bool_decide (is_Some (o_noise_reduction o))
  && bool_decide (is_Some (o_dynamic_boost o))
  && bool_decide (is_Some (o_voice_emphasis o))
  && bool_decide (is_Some (o_eq_bands o)).

(** [custom_params] with its ["name"] and ["description"] keys set, or
    removed, as given. *)
Definition with_metadata (o : Overrides) (n d : option string) : Overrides :=
  {| o_name := n; o_description := d;
     o_highpass := o_highpass o; o_lowpass := o_lowpass o;
     o_noise_reduction := o_noise_reduction o;
     o_dynamic_boost := o_dynamic_boost o;
     o_voice_emphasis := o_voice_emphasis o;
     o_eq_bands := o_eq_bands o |}.

(** The six values the builder reads from a preset. *)
Definition tuning (p : Preset) : Z * Z * float * Z * Z * list band :=
  (highpass p, lowpass p, noise_reduction p, dynamic_boost p, voice_emphasis p,
   eq_bands p).

(** A request that sets every tuning key. *)
Definition full_overrides : Overrides :=
  {| o_name := None; o_description := None;
     o_highpass := Some 90; o_lowpass := Some 0;
     o_noise_reduction := Some 1.5%float;
     o_dynamic_boost := Some 15; o_voice_emphasis := Some 9;
     o_eq_bands := Some [Band 440 12] |}.

(** ** Timestamps read back *)

Module Clock.
Import Paths.

(** What a [datetime] can hold, from the year 1000 on (from where [%Y]
    prints four digits on every platform). *)
Definition valid (t : datetime) : Prop :=
  1000 ≤ year t ≤ 9999 ∧ 1 ≤ month t ≤ 12 ∧ 1 ≤ day t ≤ 31
  ∧ 0 ≤ hour t ≤ 23 ∧ 0 ≤ minute t ≤ 59 ∧ 0 ≤ second t ≤ 59.

(** the fields that [strftime("%Y%m%d_%H%M%S")] prints *)
Definition to_second (t : datetime) : Z * Z * Z * Z * Z * Z :=
  (year t, month t, day t, hour t, minute t, second t).

(** the number a decimal field stands for *)
Definition read_field (s : string) : option Z :=
  Z.of_int <$> NilZero.int_of_string s.

(** a field of width [w] has [w] characters and reads back as [z] *)
Definition field_ok (w : nat) (z : Z) : bool :=
  (String.length (padded w z) =? w)%nat
  && bool_decide (read_field (padded w z) = Some z).


End Clock.

(** ** Environments of a request *)

Module Scenarios.
Import Paths Handler.

(** the child processes leave the file system alone *)
Definition read_only_tools (rt : runtime) : Prop :=
  ∀ argv fs, (run rt argv fs).2 = fs.

(** files can always be created and removed *)
Definition permissive (rt : runtime) : Prop :=
  (∀ p fs, open_error rt p fs = None) ∧ (∀ p fs, unlink_error rt p fs = None).


(** A machine without ffmpeg and ffprobe. *)
Definition no_ffmpeg : runtime :=
  {| run := λ argv fs,
       (Failed_to_start (NotFound "[Errno 2] No such file or directory: 'ffmpeg'"), fs);
     open_error := λ _ _, None;
     unlink_error := λ _ _, None;
     json_duration := λ _, inl "Expecting value: line 1 column 1 (char 0)" |}.


(** A file that is at the scratch input's path before the request. *)
Definition earlier_upload : filesystem := {[ sample_input := "earlier bytes" ]}.


End Scenarios.

(** ** The debug endpoint *)

Module DebugEndpoint.
Import Paths Handler.

(** [s.split("\n")[0]] *)
Fixpoint first_line (s : string) : string :=
  match s with
  | EmptyString => ""
  | String c rest =>
      if Ascii.eqb c "010"%char then "" else String c (first_line rest)
  end.

Fixpoint has_newline (s : string) : bool :=
  match s with
  | EmptyString => false
  | String c rest => Ascii.eqb c "010"%char || has_newline rest
  end.

(** The dict [debug_info] returns. *)
Record report := {
  status : string;
  ffmpeg_available : bool;
  ffmpeg_version : string;
  temp_dir : string;
  temp_dir_exists : bool;
  temp_files : list string;
  presets : list string;
}.

Inductive response :=
| Report (r : report)
| Error (error : string).

Section WithDirectory.
Variable rt : runtime.

(** What the scratch directory holds: [None] when it does not exist,
    else the names that [glob("*")] yields, or the error it raises. *)
Variable scandir : Path → filesystem → option (os_error + list string).

(** [p.exists()], taken as never raising *)
Definition dir_exists (p : Path) : M bool := λ fs,
  (Ok (bool_decide (is_Some (scandir p fs))), fs, []).

(** [list(p.glob("*"))] *)
Definition glob_all (p : Path) : M (list Path) := λ fs,
  match scandir p fs with
  | Some (inr names) => (Ok (map (λ entry, p ++ [entry]) names), fs, [])
  | Some (inl e) => (Raise (exn_of_os_error e), fs, [])
  | None => (Ok [], fs, [])
  end.

Definition debug_info : M response :=
  try_except
    ('(returncode, stdout, stderr) ← subprocess_run rt version_cmd false;
     let ffmpeg_version :=
       if returncode =? 0 then first_line stdout else "Not available" in
     present ← dir_exists TEMP_DIR;
     found ← (if present : bool then glob_all TEMP_DIR else mret []);
     present_again ← dir_exists TEMP_DIR;
     mret (Report {| status := "debug";
                     ffmpeg_available := returncode =? 0;
                     ffmpeg_version := ffmpeg_version;
                     temp_dir := str TEMP_DIR;
                     temp_dir_exists := present_again;
                     temp_files := map str found;
                     presets := Py.dict_keys PRESETS |}))
    any_exception
    (λ e, mret (Error (Py.str_of_exn e))).

End WithDirectory.

(** What a directory listing yields is names: no entry holds a slash. *)
Definition entries_are_names
    (scandir : Path → filesystem → option (os_error + list string)) : Prop :=
  ∀ p fs names,
    scandir p fs = Some (inr names) → Forall (λ entry, has_slash entry = false) names.

(** a scratch directory with two files of earlier requests *)
Definition two_leftovers (p : Path) (fs : filesystem)
    : option (os_error + list string) :=
  Some (inr ["output_20250301_115900.wav"; "output_20250301_115901.wav"]).

End DebugEndpoint.

(** ** A series of calls on one store *)

Module History.
Import Heap.

(** the store after the calls, in order *)
Fixpoint after_calls (s : store) (calls : list (string * option overrides)) : store :=
  match calls with
  | [] => s
  | (preset_name, custom_params) :: rest =>
      after_calls (build_ffmpeg_filter s preset_name custom_params).1 rest
  end.

End History.

(** * The runtime model on known values *)

Module PyExamples.

(** [repr] of floats as CPython prints them. *)
Example repr_float_fixed :
  map Py.repr_float [0.2; 2.4; 0.1; 1.5; 100; 0.0001; 123.456; -24; 1e15]%float
  = ["0.2"; "2.4"; "0.1"; "1.5"; "100.0"; "0.0001"; "123.456"; "-24.0";
     "1000000000000000.0"].
Proof. vm_compute. reflexivity. Qed.

Example repr_float_exponent :
  map Py.repr_float [1e16; 0.00001; 1e22; 5e-324; 1.7976931348623157e308; 1.2345e20]%float
  = ["1e+16"; "1e-05"; "1e+22"; "5e-324"; "1.7976931348623157e+308"; "1.2345e+20"].
Proof. vm_compute. reflexivity. Qed.

Example repr_float_inexact_sum :
  map Py.repr_float [0.1 + 0.2; 0.1 + 0.7; 2 + 0.7]%float
  = ["0.30000000000000004"; "0.7999999999999999"; "2.7"].
Proof. vm_compute. reflexivity. Qed.

Example repr_float_special :
  map Py.repr_float [nan; infinity; neg_infinity; zero; neg_zero]%float
  = ["nan"; "inf"; "-inf"; "0.0"; "-0.0"].
Proof. vm_compute. reflexivity. Qed.

(** [int / int]: correctly rounded, also beyond 2^53, and raising when the
    quotient does not fit. *)
Example int_truediv_values :
  (Py.int_truediv 8 10, Py.int_truediv 8 4, Py.int_truediv (-7) 4,
   Py.int_truediv (2 ^ 53 + 1) 1, Py.int_truediv (2 ^ 53 + 3) 1)
  = (Ok 0.8, Ok 2, Ok (-1.75), Ok 9007199254740992, Ok 9007199254740996)%float.
Proof. vm_compute. reflexivity. Qed.

Example int_truediv_overflow :
  Py.int_truediv (10 ^ 400) 4 = Raise Py.division_too_large
  ∧ Py.int_truediv (4 * Py.float_limit) 4 = Raise Py.division_too_large
  ∧ Py.int_truediv (4 * Py.float_limit - 1) 4 = Ok 1.7976931348623157e308%float.
Proof. repeat split; vm_compute; reflexivity. Qed.

Example str_of_int_values :
  map Py.str_of_int [0; 7; -3; 4000] = ["0"; "7"; "-3"; "4000"].
Proof. reflexivity. Qed.

(** The chain of every catalog preset, as handed to ffmpeg. *)
Example catalog_chains :
  map (λ key, build_ffmpeg_filter key None) (Py.dict_keys PRESETS)
  = [Ok ("highpass=f=30,lowpass=f=3500,afftdn=nr=0.5:nf=-20:nt=w," +:+
         "acompressor=threshold=-23.0dB:ratio=2.8:attack=10:release=100:makeup=2:knee=2," +:+
         "equalizer=f=100:t=o:g=-3,equalizer=f=300:t=o:g=2,equalizer=f=1000:t=o:g=3," +:+
         "equalizer=f=2000:t=o:g=2,equalizer=f=1000:t=o:g=4:w=800," +:+ closing_text);
     Ok ("highpass=f=100,lowpass=f=2000,afftdn=nr=0.3:nf=-20:nt=w," +:+
         "acompressor=threshold=-22.0dB:ratio=3.2:attack=10:release=100:makeup=2:knee=2," +:+
         "equalizer=f=200:t=o:g=2,equalizer=f=500:t=o:g=3,equalizer=f=1000:t=o:g=2," +:+
         "equalizer=f=1000:t=o:g=2:w=800," +:+ closing_text);
     Ok ("highpass=f=80,lowpass=f=8000,afftdn=nr=0.4:nf=-20:nt=w," +:+
         "acompressor=threshold=-23.5dB:ratio=2.6:attack=10:release=100:makeup=2:knee=2," +:+
         "equalizer=f=150:t=o:g=1,equalizer=f=400:t=o:g=3,equalizer=f=1000:t=o:g=4," +:+
         "equalizer=f=2000:t=o:g=3,equalizer=f=1000:t=o:g=5:w=800," +:+ closing_text);
     Ok ("highpass=f=200,lowpass=f=4000,afftdn=nr=0.6:nf=-20:nt=w," +:+
         "acompressor=threshold=-22.5dB:ratio=3.0:attack=10:release=100:makeup=2:knee=2," +:+
         "equalizer=f=60:t=o:g=-8,equalizer=f=120:t=o:g=-5,equalizer=f=500:t=o:g=4," +:+
         "equalizer=f=1500:t=o:g=5,equalizer=f=3000:t=o:g=3," +:+
         "equalizer=f=1000:t=o:g=6:w=800," +:+ closing_text);
     Ok ("highpass=f=50,lowpass=f=4000,afftdn=nr=0.2:nf=-20:nt=w," +:+
         "acompressor=threshold=-24.0dB:ratio=2.4:attack=10:release=100:makeup=2:knee=2," +:+
         "equalizer=f=250:t=o:g=2,equalizer=f=500:t=o:g=3,equalizer=f=1000:t=o:g=2," +:+
         "equalizer=f=1000:t=o:g=2:w=800," +:+ closing_text);
     Ok ("highpass=f=40,lowpass=f=6000,afftdn=nr=0.1:nf=-20:nt=w," +:+
         "acompressor=threshold=-24.5dB:ratio=2.2:attack=10:release=100:makeup=2:knee=2," +:+
         "equalizer=f=300:t=o:g=1,equalizer=f=1000:t=o:g=2," +:+
         "equalizer=f=1000:t=o:g=1:w=800," +:+ closing_text)].
Proof. vm_compute. reflexivity. Qed.

End PyExamples.

(** * Properties of the chain builder *)

Section Builder.

Implicit Types (preset : Preset) (filters : list FilterStage).

Lemma float_limit_pos : 0 < Py.float_limit.
Proof. reflexivity. Qed.

Lemma int_truediv_Ok a b :
  0 < b → Z.abs a < Py.float_limit * b → ∃ q, Py.int_truediv a b = Ok q.
Proof.
  intros Hb Hlt. unfold Py.int_truediv, Py.overflows.
  rewrite (Z.abs_eq b) by lia.
  destruct (Z.leb_spec (Py.float_limit * b) (Z.abs a)); [lia | eauto].
Qed.

Lemma int_truediv_Raise a b :
  0 < b → Py.float_limit * b ≤ Z.abs a → Py.int_truediv a b = Raise Py.division_too_large.
Proof.
  intros Hb Hle. unfold Py.int_truediv, Py.overflows.
  rewrite (Z.abs_eq b) by lia.
  destruct (Z.leb_spec (Py.float_limit * b) (Z.abs a)); [done | lia].
Qed.

Lemma int_truediv_inv a b r :
  Py.int_truediv a b = r →
  (∃ q, r = Ok q) ∨ r = Raise Py.division_too_large.
Proof.
  unfold Py.int_truediv. intros <-. destruct (Py.overflows _ _); eauto.
Qed.

(** What step 4 appends, in each of its three cases. *)
Lemma compressor_stage_off preset :
  dynamic_boost preset ≤ 0 → compressor_stage preset = Ok [].
Proof.
  intros Hle. unfold compressor_stage.
  destruct (Z.ltb_spec 0 (dynamic_boost preset)); [lia | done].
Qed.

Lemma compressor_stage_on preset comp :
  0 < dynamic_boost preset →
  compressor_stage preset = Ok comp →
  ∃ q10 q4,
    Py.int_truediv (dynamic_boost preset) 10 = Ok q10 ∧
    Py.int_truediv (dynamic_boost preset) 4 = Ok q4 ∧
    comp = [Acompressor (-25 + q4) (2 + q10)].
Proof.
  intros Hpos. unfold compressor_stage.
  destruct (Z.ltb_spec 0 (dynamic_boost preset)); [| lia].
  destruct (Py.int_truediv _ 10) as [q10 |] eqn:H10; [| done].
  destruct (Py.int_truediv _ 4) as [q4 |] eqn:H4; [| done].
  cbn. intros [= <-]. eauto.
Qed.

Lemma compressor_stage_total preset :
  dynamic_boost preset < 4 * Py.float_limit →
  ∃ comp, compressor_stage preset = Ok comp.
Proof.
  intros Hlt. pose proof float_limit_pos.
  destruct (Z.le_gt_cases (dynamic_boost preset) 0) as [Hle | Hpos].
  { rewrite compressor_stage_off; eauto. }
  unfold compressor_stage.
  destruct (Z.ltb_spec 0 (dynamic_boost preset)); [| lia].
  destruct (int_truediv_Ok (dynamic_boost preset) 10) as [q10 ->]; [lia | lia |].
  destruct (int_truediv_Ok (dynamic_boost preset) 4) as [q4 ->]; [lia | lia |].
  cbn. eauto.
Qed.

Lemma compressor_stage_overflow preset :
  4 * Py.float_limit ≤ dynamic_boost preset →
  compressor_stage preset = Raise Py.division_too_large.
Proof.
  intros Hle. pose proof float_limit_pos. unfold compressor_stage.
  destruct (Z.ltb_spec 0 (dynamic_boost preset)); [| lia].
  destruct (int_truediv_inv (dynamic_boost preset) 10 _ eq_refl) as [[q10 ->] | ->];
    [| done].
  rewrite int_truediv_Raise; [done | lia | lia].
Qed.

(** The gains that a chain holds are within the limit of the conversion. *)
Lemma fits_small z : -10 ≤ z ≤ 10 → Py.fits z = true.
Proof.
  intros Hz.
  assert (forallb (λ k, Py.fits (-10 + Z.of_nat k)) (seq 0 21) = true) as Hall
    by reflexivity.
  rewrite forallb_forall in Hall.
  replace z with (-10 + Z.of_nat (Z.to_nat (z + 10))) by lia.
  apply Hall, in_seq. lia.
Qed.

Lemma format_int_fits z : Py.fits z = true → Py.format_int z = Ok (Py.str_of_int z).
Proof. unfold Py.format_int. by intros ->. Qed.

Lemma format_int_long z : Py.fits z = false → Py.format_int z = Raise Py.int_too_long.
Proof. unfold Py.format_int. by intros ->. Qed.

Lemma format_int_small z : -10 ≤ z ≤ 10 → Py.format_int z = Ok (Py.str_of_int z).
Proof. intros Hz. by apply format_int_fits, fits_small. Qed.

Lemma format_int_voice_freq : Py.format_int 1000 = Ok "1000".
Proof. reflexivity. Qed.

(** What steps 1 and 2 append, and when they raise. *)
Lemma cutoff_stage_fits cutoff stage :
  cutoff_fits cutoff = true →
  cutoff_stage cutoff stage = Ok (if 0 <? cutoff then [stage cutoff] else []).
Proof.
  unfold cutoff_fits, cutoff_stage.
  destruct (0 <? cutoff); [| done]. cbn. intros Hfit.
  by rewrite format_int_fits.
Qed.

Lemma cutoff_stage_long cutoff stage :
  cutoff_fits cutoff = false → cutoff_stage cutoff stage = Raise Py.int_too_long.
Proof.
  unfold cutoff_fits, cutoff_stage.
  destruct (0 <? cutoff); [| done]. cbn. intros Hfit.
  by rewrite format_int_long.
Qed.

(** What step 5 appends, and when it raises. *)
Lemma equalizer_stages_fit (bs : list band) :
  forallb (λ b, Py.fits (freq b)) bs = true →
  equalizer_stages bs = Ok (map equalizer_stage bs).
Proof.
  induction bs as [| b bs IH]; [done |].
  cbn [forallb]. intros [Hb Hbs]%andb_true_iff. cbn [equalizer_stages].
  rewrite (format_int_fits (freq b)) by done. cbn.
  rewrite format_int_small by (unfold limit_gain; lia). cbn.
  by rewrite (IH Hbs).
Qed.

Lemma equalizer_stages_long (bs : list band) :
  forallb (λ b, Py.fits (freq b)) bs = false →
  equalizer_stages bs = Raise Py.int_too_long.
Proof.
  induction bs as [| b bs IH]; [done |].
  cbn [forallb equalizer_stages].
  destruct (Py.fits (freq b)) eqn:Hb.
  2: { intros _. by rewrite (format_int_long (freq b)). }
  rewrite (format_int_fits (freq b)) by done. cbn.
  rewrite format_int_small by (unfold limit_gain; lia). cbn.
  intros Hbs. by rewrite (IH Hbs).
Qed.

(** [build_stages] with its control flow laid out: the steps raise in
    the order cutoffs, division, bands. *)
Lemma build_stages_eq preset :
  build_stages preset
  = if cutoffs_fit preset
    then comp ← compressor_stage preset;
         if bands_fit preset
         then Ok (optional_stages preset comp ++ [Alimiter; Volume])
         else Raise Py.int_too_long
    else Raise Py.int_too_long.
Proof.
  unfold build_stages, cutoffs_fit, bands_fit.
  destruct (cutoff_fits (highpass preset)) eqn:Hhp; cbn [andb].
  2: { by rewrite (cutoff_stage_long (highpass preset)). }
  rewrite (cutoff_stage_fits (highpass preset)) by done. cbn.
  destruct (cutoff_fits (lowpass preset)) eqn:Hlp.
  2: { by rewrite (cutoff_stage_long (lowpass preset)). }
  rewrite (cutoff_stage_fits (lowpass preset)) by done. cbn.
  destruct (compressor_stage preset) as [comp | e]; [| done]. cbn.
  destruct (forallb _ (eq_bands preset)) eqn:Hbands.
  2: { by rewrite equalizer_stages_long. }
  rewrite equalizer_stages_fit by done. cbn.
  unfold optional_stages. rewrite <- !app_assoc.
  destruct (Z.ltb_spec 0 (voice_emphasis preset)); [| done].
  rewrite format_int_voice_freq. cbn.
  by rewrite format_int_small by lia.
Qed.

Lemma build_stages_overflow preset :
  cutoffs_fit preset = true →
  4 * Py.float_limit ≤ dynamic_boost preset →
  build_stages preset = Raise Py.division_too_large.
Proof.
  intros Hfit Hle. by rewrite build_stages_eq, Hfit, compressor_stage_overflow.
Qed.

Lemma compressor_stage_shape preset comp :
  compressor_stage preset = Ok comp →
  List.filter is_closing_stage comp = [] ∧ List.filter is_band_stage comp = [].
Proof.
  intros Hc. destruct (Z.le_gt_cases (dynamic_boost preset) 0) as [Hle | Hpos].
  - rewrite compressor_stage_off in Hc by done. by injection Hc as <-.
  - destruct (compressor_stage_on preset comp) as (? & ? & _ & _ & ->); [lia | done | done].
Qed.

Lemma build_stages_inv preset filters :
  build_stages preset = Ok filters →
  ∃ comp, compressor_stage preset = Ok comp ∧
          filters = optional_stages preset comp ++ [Alimiter; Volume].
Proof.
  rewrite build_stages_eq. destruct (cutoffs_fit preset); [| done].
  destruct (compressor_stage preset) as [comp |]; [| done]. cbn.
  destruct (bands_fit preset); [| done].
  intros [= <-]. by exists comp.
Qed.

Lemma build_stages_intro preset comp :
  printable preset = true →
  compressor_stage preset = Ok comp →
  build_stages preset = Ok (optional_stages preset comp ++ [Alimiter; Volume]).
Proof.
  unfold printable. intros [Hcut Hbands]%andb_true_iff Hc.
  by rewrite build_stages_eq, Hcut, Hc, Hbands.
Qed.

(** A chain is built exactly when every int can be formatted and the
    compressor's quotients fit a float. *)
Lemma build_stages_total preset :
  printable preset = true →
  dynamic_boost preset < 4 * Py.float_limit →
  ∃ filters, build_stages preset = Ok filters.
Proof.
  intros Hprint [comp Hc]%compressor_stage_total.
  eexists. by apply build_stages_intro.
Qed.

Lemma filter_map_equalizer (bs : list band) :
  List.filter is_band_stage (map equalizer_stage bs) = map equalizer_stage bs
  ∧ List.filter is_closing_stage (map equalizer_stage bs) = []
  ∧ List.filter is_compressor (map equalizer_stage bs) = [].
Proof.
  induction bs as [| b bs (IH1 & IH2 & IH3)]; [done |].
  cbn. by rewrite IH1, IH2, IH3.
Qed.

Lemma optional_stages_closing preset comp :
  compressor_stage preset = Ok comp →
  List.filter is_closing_stage (optional_stages preset comp) = [].
Proof.
  intros [Hc _]%compressor_stage_shape. unfold optional_stages.
  rewrite !List.filter_app, Hc.
  destruct (filter_map_equalizer (eq_bands preset)) as (_ & -> & _).
  by repeat case_match.
Qed.

Lemma optional_stages_bands preset comp :
  compressor_stage preset = Ok comp →
  List.filter is_band_stage (optional_stages preset comp)
  = map equalizer_stage (eq_bands preset).
Proof.
  intros [_ Hc]%compressor_stage_shape. unfold optional_stages.
  rewrite !List.filter_app, Hc.
  destruct (filter_map_equalizer (eq_bands preset)) as (-> & _ & _).
  repeat case_match; cbn; by rewrite ?app_nil_r.
Qed.

Lemma optional_stages_compressor preset comp :
  List.filter is_compressor (optional_stages preset comp)
  = List.filter is_compressor comp.
Proof.
  unfold optional_stages. rewrite !List.filter_app.
  destruct (filter_map_equalizer (eq_bands preset)) as (_ & _ & ->).
  repeat case_match; cbn; by rewrite ?app_nil_r.
Qed.

Lemma build_ffmpeg_filter_on_values_eq preset_name custom_params :
  build_ffmpeg_filter_on_values preset_name custom_params
  = match Py.dict_get PRESETS preset_name with
    | None => Raise (ValueError ("Unknown preset: " +:+ preset_name))
    | Some base =>
        filters ← build_stages (merged_preset base custom_params);
        Ok (Py.join "," (map render filters))
    end.
Proof. reflexivity. Qed.

Lemma append_assoc (s1 s2 s3 : string) : (s1 +:+ s2) +:+ s3 = s1 +:+ s2 +:+ s3.
Proof.
  induction s1 as [| c s1 IH]; [reflexivity |].
  exact (f_equal (String c) IH).
Qed.

(** Joining a list that ends in [tail_parts] ends in the joined tail. *)
Lemma join_app_tail sep (front tail_parts : list string) :
  tail_parts ≠ [] →
  ∃ pre, Py.join sep (front ++ tail_parts) = pre +:+ Py.join sep tail_parts.
Proof.
  intros Hne. induction front as [| p front [pre IH]].
  - by exists "".
  - exists (p +:+ sep +:+ pre). cbn [app Py.join].
    destruct (front ++ tail_parts) eqn:Happ.
    + by destruct front, tail_parts.
    + by rewrite IH, !append_assoc.
Qed.

(** C1: every chain that [build_ffmpeg_filter] returns ends with the
    limiter stage followed by the fixed output-gain stage, and these two
    occur nowhere else in it; so no chain is empty.  A chain is returned
    for every preset whose ints can be formatted (a cutoff in use and the
    bands' frequencies have at most 4300 digits) and whose [dynamic_boost]
    stays below four times the float range (beyond that, the division of
    step 4 raises).  A preset in which every trigger is off yields these
    two stages alone.  In the text
    that [build_ffmpeg_filter] returns, for any preset name and overrides,
    the two closing filters come last. *)
Theorem chain_ends_with_limiter_and_gain preset :
  (∀ filters, build_stages preset = Ok filters →
     ∃ front, filters = front ++ [Alimiter; Volume]
              ∧ List.filter is_closing_stage front = []
              ∧ filters ≠ [])
  ∧ (printable preset = true →
     dynamic_boost preset < 4 * Py.float_limit →
     ∃ filters, build_stages preset = Ok filters)
  ∧ (highpass preset ≤ 0 → lowpass preset ≤ 0 →
     (0 <? noise_reduction preset)%float = false →
     dynamic_boost preset ≤ 0 → voice_emphasis preset ≤ 0 →
     eq_bands preset = [] →
     build_stages preset = Ok [Alimiter; Volume])
  ∧ (∀ preset_name custom_params chain,
       build_ffmpeg_filter preset_name custom_params = Ok chain →
       ∃ pre, chain = pre +:+ closing_text).
Proof.
  split; [| split; [| split]].
  - intros filters (comp & Hc & ->)%build_stages_inv.
    exists (optional_stages preset comp). split; [done |]. split.
    + by apply optional_stages_closing.
    + by destruct (optional_stages preset comp).
  - apply build_stages_total.
  - intros Hhp Hlp Hnr Hdb Hve Heq.
    rewrite (build_stages_intro preset []).
    + unfold optional_stages. rewrite Hnr, Heq.
      destruct (Z.ltb_spec 0 (highpass preset)); [lia |].
      destruct (Z.ltb_spec 0 (lowpass preset)); [lia |].
      destruct (Z.ltb_spec 0 (voice_emphasis preset)); [lia | done].
    + unfold printable, cutoffs_fit, cutoff_fits, bands_fit. rewrite Heq.
      destruct (Z.ltb_spec 0 (highpass preset)); [lia |].
      by destruct (Z.ltb_spec 0 (lowpass preset)); [lia |].
    + by apply compressor_stage_off.
  - intros preset_name custom_params chain Hbuild.
    unfold build_ffmpeg_filter in Hbuild.
    destruct (Py.dict_get PRESETS preset_name) as [base |]; [| done].
    cbn in Hbuild.
    destruct (build_stages _) as [filters |] eqn:Hst; [| done].
    cbn in Hbuild. injection Hbuild as <-.
    apply build_stages_inv in Hst as (comp & _ & ->).
    rewrite map_app.
    by apply (join_app_tail "," _ (map render [Alimiter; Volume])).
Qed.

Lemma chain_ends_with_limiter_and_gain_witness :
  build_stages silent_preset = Ok [Alimiter; Volume]
  ∧ (∃ front, [Alimiter; Volume] = front ++ [Alimiter; Volume]
              ∧ List.filter is_closing_stage front = []
              ∧ [Alimiter; Volume] ≠ [])
  ∧ (∃ filters, build_stages silent_preset = Ok filters)
  ∧ (∃ front,
       [Acompressor (-23) 2.8; Equalizer 100 10; Equalizer 200 (-10); Equalizer 300 7;
        Alimiter; Volume] = front ++ [Alimiter; Volume]
       ∧ List.filter is_closing_stage front = [])
  ∧ ∃ filters, build_stages loud_preset = Ok filters.
Proof.
  destruct (chain_ends_with_limiter_and_gain silent_preset) as (Hend & Hruns & Hoff & _).
  destruct (chain_ends_with_limiter_and_gain loud_preset) as (Hend' & Hruns' & _).
  split; [| split; [| split; [| split]]].
  - apply Hoff; cbn; solve [lia | reflexivity].
  - apply Hend. reflexivity.
  - apply Hruns; reflexivity.
  - destruct (Hend' _ eq_refl) as (front & Heq & Hnone & _). by exists front.
  - apply Hruns'; reflexivity.
Defined.

(** C2 as stated fails on its count: the chain of ["clean_whisper"] has
    ten stages, not nine. *)
Lemma clean_whisper_chain_is_not_nine_stages :
  ∃ preset filters,
    Py.dict_get PRESETS "clean_whisper" = Some preset
    ∧ build_stages preset = Ok filters
    ∧ length filters = 10%nat
    ∧ length filters ≠ 9%nat.
Proof.
  do 2 eexists. split; [reflexivity |]. split; [vm_compute; reflexivity |].
  split; [reflexivity | discriminate].
Qed.

(** C2, amended: the catalog preset ["clean_whisper"] (highpass 50,
    lowpass 4000, noise reduction 0.2, dynamic boost 4, voice emphasis 2,
    three bands) yields highpass, lowpass, noise reduction, compressor,
    three equalizer stages, voice emphasis with gain 2, limiter and fixed
    gain, in that order: ten stages.  The second part is the text handed
    to ffmpeg. *)
Theorem clean_whisper_chain :
  ∃ preset,
    Py.dict_get PRESETS "clean_whisper" = Some preset
    ∧ (highpass preset, lowpass preset, noise_reduction preset,
       dynamic_boost preset, voice_emphasis preset, length (eq_bands preset))
      = (50, 4000, 0.2%float, 4, 2, 3%nat)
    ∧ build_stages preset
      = Ok [Highpass 50; Lowpass 4000; Afftdn 0.2; Acompressor (-24) 2.4;
            Equalizer 250 2; Equalizer 500 3; Equalizer 1000 2;
            VoiceEqualizer 1000 2; Alimiter; Volume]
    ∧ build_ffmpeg_filter "clean_whisper" None
      = Ok ("highpass=f=50,lowpass=f=4000,afftdn=nr=0.2:nf=-20:nt=w," +:+
            "acompressor=threshold=-24.0dB:ratio=2.4:attack=10:release=100:makeup=2:knee=2," +:+
            "equalizer=f=250:t=o:g=2,equalizer=f=500:t=o:g=3,equalizer=f=1000:t=o:g=2," +:+
            "equalizer=f=1000:t=o:g=2:w=800," +:+
            "alimiter=level_in=1:level_out=0.95:limit=0.95,volume=1.2").
Proof.
  eexists. split; [reflexivity |]. split; [reflexivity |].
  split; vm_compute; reflexivity.
Qed.

Lemma limit_gain_spec g :
  -10 ≤ limit_gain g ≤ 10
  ∧ (-10 ≤ g ≤ 10 → limit_gain g = g)
  ∧ (10 < g → limit_gain g = 10)
  ∧ (g < -10 → limit_gain g = -10).
Proof. unfold limit_gain. lia. Qed.

(** C3: in every chain built, the equalizer stages are one per band of
    the preset, in the stored order, each carrying the band's frequency
    and its gain limited to [-10, 10]: the gain itself when it lies within
    the limits, and the nearer limit (never the stored value) when it does not. *)
Theorem equalizer_gain_is_clamped preset filters :
  build_stages preset = Ok filters →
  List.filter is_band_stage filters
  = map (λ b, Equalizer (freq b) (limit_gain (gain b))) (eq_bands preset)
  ∧ ∀ b, b ∈ eq_bands preset →
      Equalizer (freq b) (limit_gain (gain b)) ∈ filters
      ∧ -10 ≤ limit_gain (gain b) ≤ 10
      ∧ (-10 ≤ gain b ≤ 10 → limit_gain (gain b) = gain b)
      ∧ (10 < gain b → limit_gain (gain b) = 10 ∧ limit_gain (gain b) ≠ gain b)
      ∧ (gain b < -10 → limit_gain (gain b) = -10 ∧ limit_gain (gain b) ≠ gain b)
      ∧ render (Equalizer (freq b) (limit_gain (gain b)))
        = "equalizer=f=" +:+ Py.str_of_int (freq b) +:+ ":t=o:g=" +:+
          Py.str_of_int (limit_gain (gain b)).
Proof.
  intros (comp & Hc & ->)%build_stages_inv. split.
  - rewrite List.filter_app, optional_stages_bands by done. cbn. by rewrite app_nil_r.
  - intros b Hb. split; [| pose proof (limit_gain_spec (gain b)); repeat split; lia].
    apply elem_of_app. left. unfold optional_stages.
    do 4 (apply elem_of_app; right). apply elem_of_app. left.
    by apply (list_elem_of_fmap_2 equalizer_stage).
Qed.

Lemma equalizer_gain_is_clamped_witness :
  List.filter is_band_stage
    [Acompressor (-23) 2.8; Equalizer 100 10; Equalizer 200 (-10); Equalizer 300 7;
     Alimiter; Volume]
  = [Equalizer 100 10; Equalizer 200 (-10); Equalizer 300 7].
Proof.
  exact (proj1 (equalizer_gain_is_clamped loud_preset
                  [Acompressor (-23) 2.8; Equalizer 100 10; Equalizer 200 (-10);
                   Equalizer 300 7; Alimiter; Volume] eq_refl)).
Defined.

(** C7: when [dynamic_boost > 0], every chain built holds exactly one
    compressor stage, with ratio [2 + dynamic_boost / 10] and threshold
    [-25 + dynamic_boost / 4] (the quotients being Python's [int / int]),
    rendered with attack 10, release 100, makeup 2 and knee 2; a chain is
    built as long as the quotient fits a float and the preset's ints can
    be formatted.  When [dynamic_boost] is zero (or less) no chain built
    holds a compressor stage, and a chain is built whenever the preset's
    ints can be formatted. *)
Theorem compressor_parameters preset :
  (0 < dynamic_boost preset →
     (∀ filters, build_stages preset = Ok filters →
        ∃ q10 q4,
          Py.int_truediv (dynamic_boost preset) 10 = Ok q10
          ∧ Py.int_truediv (dynamic_boost preset) 4 = Ok q4
          ∧ List.filter is_compressor filters = [Acompressor (-25 + q4) (2 + q10)]
          ∧ render (Acompressor (-25 + q4) (2 + q10))
            = "acompressor=threshold=" +:+ Py.repr_float (-25 + q4) +:+ "dB:ratio=" +:+
              Py.repr_float (2 + q10) +:+ ":attack=10:release=100:makeup=2:knee=2")
     ∧ (printable preset = true →
        dynamic_boost preset < 4 * Py.float_limit →
        ∃ filters, build_stages preset = Ok filters))
  ∧ (dynamic_boost preset ≤ 0 →
     (∀ filters, build_stages preset = Ok filters →
        List.filter is_compressor filters = [])
     ∧ (printable preset = true →
        ∃ filters, build_stages preset = Ok filters
                   ∧ List.filter is_compressor filters = [])).
Proof.
  split.
  - intros Hpos. split.
    + intros filters (comp & Hc & ->)%build_stages_inv.
      destruct (compressor_stage_on preset comp Hpos Hc) as (q10 & q4 & H10 & H4 & ->).
      exists q10, q4. repeat split; [done | done |].
      by rewrite List.filter_app, optional_stages_compressor.
    + apply build_stages_total.
  - intros Hle. split.
    + intros filters (comp & Hc & ->)%build_stages_inv.
      rewrite compressor_stage_off in Hc by done. injection Hc as <-.
      by rewrite List.filter_app, optional_stages_compressor.
    + intros Hprint. eexists. split.
      * apply build_stages_intro; [done |]. by apply compressor_stage_off.
      * by rewrite List.filter_app, optional_stages_compressor.
Qed.

Lemma compressor_parameters_witness :
  (∃ q10 q4,
      Py.int_truediv 8 10 = Ok q10 ∧ Py.int_truediv 8 4 = Ok q4
      ∧ List.filter is_compressor
          [Acompressor (-23) 2.8; Equalizer 100 10; Equalizer 200 (-10);
           Equalizer 300 7; Alimiter; Volume]
        = [Acompressor (-25 + q4) (2 + q10)]
      ∧ render (Acompressor (-25 + q4) (2 + q10))
        = "acompressor=threshold=" +:+ Py.repr_float (-25 + q4) +:+ "dB:ratio=" +:+
          Py.repr_float (2 + q10) +:+ ":attack=10:release=100:makeup=2:knee=2")
  ∧ ∃ filters, build_stages silent_preset = Ok filters
               ∧ List.filter is_compressor filters = [].
Proof.
  split.
  - refine (proj1 (proj1 (compressor_parameters loud_preset) _) _ _); reflexivity.
  - apply (proj2 (compressor_parameters silent_preset)); [cbn; lia | reflexivity].
Defined.

End Builder.

(** * The catalog is left alone *)

Module HeapFacts.
Import Heap.

Section Frame.
Implicit Types (h : gmap loc obj) (s : store).

Lemma alloc_fresh h o : h !! (alloc h o).1 = None.
Proof. cbn. apply not_elem_of_dom, is_fresh. Qed.

Lemma alloc_lookup h o : (alloc h o).2 !! (alloc h o).1 = Some o.
Proof. cbn. apply lookup_insert_eq. Qed.

Lemma alloc_subseteq h o : h ⊆ (alloc h o).2.
Proof. cbn. apply insert_subseteq, (alloc_fresh h o). Qed.

(** Reading is stable under heap extension. *)
Lemma read_band_mono h h' l b :
  h ⊆ h' → read_band h l = Some b → read_band h' l = Some b.
Proof.
  intros Hsub. unfold read_band.
  destruct (h !! l) as [x |] eqn:Hl; [| done].
  by rewrite (lookup_weaken _ _ _ _ Hl Hsub).
Qed.

Lemma read_bands_mono h h' l bs :
  h ⊆ h' → read_bands h l = Some bs → read_bands h' l = Some bs.
Proof.
  intros Hsub. unfold read_bands.
  destruct (h !! l) as [x |] eqn:Hl; [| done].
  rewrite (lookup_weaken _ _ _ _ Hl Hsub).
  destruct x as [| | items |]; try done.
  rewrite !mapM_Some. intros Hall.
  eapply Forall2_impl; [exact Hall | eauto using read_band_mono].
Qed.

Lemma read_dict_mono h h' d p :
  h ⊆ h' → read_dict h d = Some p → read_dict h' d = Some p.
Proof.
  intros Hsub. unfold read_dict.
  destruct (read_bands h (d_eq_bands d)) as [bs |] eqn:Hb; [| done].
  by rewrite (read_bands_mono _ _ _ _ Hsub Hb).
Qed.

Lemma read_preset_mono h h' l p :
  h ⊆ h' → read_preset h l = Some p → read_preset h' l = Some p.
Proof.
  intros Hsub. unfold read_preset.
  destruct (h !! l) as [x |] eqn:Hl; [| done].
  rewrite (lookup_weaken _ _ _ _ Hl Hsub).
  destruct x; try done. by apply read_dict_mono.
Qed.

Lemma catalog_value_mono s s' c :
  PRESETS_ref s' = PRESETS_ref s → heap s ⊆ heap s' →
  catalog_value s = Some c → catalog_value s' = Some c.
Proof.
  intros Href Hsub. unfold catalog_value. rewrite Href.
  destruct (heap s !! PRESETS_ref s) as [x |] eqn:Hl; [| done].
  rewrite (lookup_weaken _ _ _ _ Hl Hsub).
  destruct x as [entries | | |]; try done.
  rewrite !mapM_Some. intros Hall.
  eapply Forall2_impl; [exact Hall |]. intros e kp. unfold read_entry.
  destruct (read_preset (heap s) e.2) as [p |] eqn:Hp; [| done].
  by rewrite (read_preset_mono _ _ _ _ Hsub Hp).
Qed.

(** The heap after the call: the old one plus the copy. *)
Lemma build_ffmpeg_filter_heap s preset_name custom_params :
  let s' := (build_ffmpeg_filter s preset_name custom_params).1 in
  PRESETS_ref s' = PRESETS_ref s
  ∧ (heap s' = heap s
     ∨ ∃ entries entry d,
         heap s !! PRESETS_ref s = Some (OCatalog entries)
         ∧ Py.dict_get entries preset_name = Some entry
         ∧ heap s !! entry = Some (ODict d)
         ∧ heap s' = <[fresh (dom (heap s)) := ODict (merged d custom_params)]> (heap s)).
Proof.
  unfold build_ffmpeg_filter.
  destruct (heap s !! PRESETS_ref s) as [[entries | | |] |] eqn:Hc; try (cbn; by auto).
  destruct (Py.dict_get entries preset_name) as [entry |] eqn:He; [| cbn; by auto].
  destruct (heap s !! entry) as [[| d | |] |] eqn:Hd; try (cbn; by auto).
  cbn. split; [done |]. right. exists entries, entry, d.
  repeat split; try done.
  destruct custom_params as [o |]; cbn; [| done].
  destruct (truthy o); [| done]. by rewrite insert_insert_eq.
Qed.

Lemma build_ffmpeg_filter_found s preset_name custom_params entries entry d :
  heap s !! PRESETS_ref s = Some (OCatalog entries) →
  Py.dict_get entries preset_name = Some entry →
  heap s !! entry = Some (ODict d) →
  heap (build_ffmpeg_filter s preset_name custom_params).1
  = <[fresh (dom (heap s)) := ODict (merged d custom_params)]> (heap s).
Proof.
  intros Hc He Hd. unfold build_ffmpeg_filter. rewrite Hc, He, Hd. cbn.
  destruct custom_params as [o |]; cbn; [| done].
  destruct (truthy o); [| done]. by rewrite insert_insert_eq.
Qed.

Lemma build_ffmpeg_filter_frame s preset_name custom_params :
  heap s ⊆ heap (build_ffmpeg_filter s preset_name custom_params).1.
Proof.
  destruct (build_ffmpeg_filter_heap s preset_name custom_params)
    as [_ [-> | (? & ? & ? & _ & _ & _ & ->)]]; [done |].
  apply insert_subseteq, not_elem_of_dom, is_fresh.
Qed.

End Frame.

Section Runs.
Implicit Types (h : gmap loc obj) (s : store).

Lemma dict_get_entries h entries (cat : list (string * Preset)) key :
  mapM (read_entry h) entries = Some cat →
  match Py.dict_get entries key with
  | Some entry => ∃ p, Py.dict_get cat key = Some p ∧ read_preset h entry = Some p
  | None => Py.dict_get cat key = None
  end.
Proof.
  rewrite mapM_Some. induction 1 as [| [k l] [k' p] entries cat Hread _ IH]; [done |].
  unfold read_entry in Hread. cbn in Hread.
  destruct (read_preset h l) as [p' |] eqn:Hp; [| done].
  cbn in Hread. injection Hread as <- <-. cbn.
  destruct (String.eqb k key); [eauto | done].
Qed.

Lemma truthy_value h o o' :
  overrides_value h o = Some o' → overrides_truthy o' = truthy o.
Proof.
  unfold overrides_value, overrides_truthy, truthy.
  destruct (c_eq_bands o) as [l |]; [destruct (read_bands h l) |];
    cbn; intros [= <-]; cbn; [| done].
  f_equal.
Qed.

Lemma read_merged h h' d p custom_params custom_v :
  h ⊆ h' →
  read_dict h d = Some p →
  custom_value h custom_params = Some custom_v →
  read_dict h' (merged d custom_params) = Some (merged_preset p custom_v).
Proof.
  intros Hsub Hd Hv. destruct custom_params as [o |]; cbn in Hv.
  - destruct (overrides_value h o) as [o' |] eqn:Ho; [| done].
    cbn in Hv. injection Hv as <-. cbn.
    rewrite (truthy_value h o o' Ho).
    destruct (truthy o); [| by apply (read_dict_mono h)].
    unfold read_dict in Hd |- *.
    destruct (read_bands h (d_eq_bands d)) as [bs |] eqn:Hb; [| done].
    cbn in Hd. injection Hd as <-.
    unfold overrides_value in Ho. unfold updated, update. cbn.
    destruct (c_eq_bands o) as [l |]; cbn.
    + destruct (read_bands h l) as [bs' |] eqn:Hb'; [| done].
      cbn in Ho. injection Ho as <-. cbn.
      by rewrite (read_bands_mono _ _ _ _ Hsub Hb').
    + injection Ho as <-. cbn.
      by rewrite (read_bands_mono _ _ _ _ Hsub Hb).
  - injection Hv as <-. cbn. by apply (read_dict_mono h).
Qed.

(** On a store whose catalog reads as [PRESETS], the function over the
    store returns what [build_ffmpeg_filter] returns on the values. *)
Lemma build_ffmpeg_filter_runs s preset_name custom_params custom_v :
  catalog_value s = Some PRESETS →
  custom_value (heap s) custom_params = Some custom_v →
  (Heap.build_ffmpeg_filter s preset_name custom_params).2
  = Some (build_ffmpeg_filter_on_values preset_name custom_v).
Proof.
  unfold catalog_value. intros Hcat Hv.
  destruct (heap s !! PRESETS_ref s) as [[entries | | |] |] eqn:Hc; try done.
  pose proof (dict_get_entries _ _ _ preset_name Hcat) as Hget.
  rewrite build_ffmpeg_filter_on_values_eq.
  unfold Heap.build_ffmpeg_filter. rewrite Hc.
  destruct (Py.dict_get entries preset_name) as [entry |] eqn:He.
  - destruct Hget as (p & -> & Hp). unfold read_preset in Hp.
    destruct (heap s !! entry) as [[| d | |] |] eqn:Hd; try done.
    pose proof (build_ffmpeg_filter_found s preset_name custom_params _ _ _ Hc He Hd)
      as Hheap.
    unfold Heap.build_ffmpeg_filter in Hheap. rewrite Hc, He, Hd in Hheap.
    cbn in Hheap |- *. rewrite Hheap. unfold read_preset.
    rewrite lookup_insert_eq.
    rewrite (read_merged (heap s) _ d p custom_params custom_v); [done | | done | done].
    apply insert_subseteq, not_elem_of_dom, is_fresh.
  - by rewrite Hget.
Qed.

End Runs.

(** C8: whatever the store, the preset name and the overrides, calling
    [build_ffmpeg_filter] leaves [PRESETS] bound to the same object and
    leaves every object that existed before the call as it was, so the
    catalog reads as the same value afterwards.  When the name is in the
    catalog the only change to the heap is one new dict, at a location
    that was free: the copy of the entry, holding the entry's values
    with the overrides written over them. *)
Theorem catalog_never_mutated (s : store) (preset_name : string)
    (custom_params : option overrides) :
  let s' := (build_ffmpeg_filter s preset_name custom_params).1 in
  PRESETS_ref s' = PRESETS_ref s
  ∧ (∀ l o, heap s !! l = Some o → heap s' !! l = Some o)
  ∧ (∀ c, catalog_value s = Some c → catalog_value s' = Some c)
  ∧ (∀ entries entry d,
       heap s !! PRESETS_ref s = Some (OCatalog entries) →
       Py.dict_get entries preset_name = Some entry →
       heap s !! entry = Some (ODict d) →
       ∃ copy,
         heap s !! copy = None
         ∧ heap s' = <[copy := ODict (merged d custom_params)]> (heap s)
         ∧ heap s' !! entry = Some (ODict d)).
Proof.
  intros s'.
  pose proof (build_ffmpeg_filter_frame s preset_name custom_params) as Hsub.
  destruct (build_ffmpeg_filter_heap s preset_name custom_params) as [Href Hheap].
  fold s' in Hsub, Href, Hheap.
  split; [done |]. split; [| split].
  - intros l o Hl. by apply (lookup_weaken _ _ _ _ Hl Hsub).
  - intros c. by apply catalog_value_mono.
  - intros entries entry d Hc He Hd. exists (fresh (dom (heap s))).
    split; [apply not_elem_of_dom, is_fresh |].
    split; [| by apply (lookup_weaken _ _ _ _ Hd Hsub)].
    by apply (build_ffmpeg_filter_found _ _ _ entries entry).
Qed.

Lemma catalog_never_mutated_witness :
  catalog_value
    (build_ffmpeg_filter initial_store "whisper" (Some sample_overrides)).1
  = Some PRESETS.
Proof.
  apply (catalog_never_mutated initial_store "whisper" (Some sample_overrides)).
  vm_compute. reflexivity.
Defined.

End HeapFacts.

(** * The request handler, case by case *)

Module HandlerFacts.
Import Paths Handler.

Ltac unfold_M :=
  unfold try_except, subprocess_run, write_file, unlink, exists_, st_size,
    read_duration, lift, any_exception;
  unfold mbind, M_bind, bind, mret, M_ret, ret, raise.

Section Unfolding.
Variable rt : runtime.
Implicit Types (fs : filesystem) (input output : Path).

(** [process_audio_file] with its control flow laid out: one branch
    per way through the [try] block. *)
Lemma process_audio_file_eq input output preset_name custom_params fs :
  process_audio_file rt input output preset_name custom_params fs
  = let '(probe, fs1) := run rt (info_cmd input) fs in
    let probed := [Run (info_cmd input) probe] in
    match probe with
    | Failed_to_start e =>
        (Ok (Failure (Py.str_of_exn (exn_of_os_error e))), fs1, probed)
    | CompletedProcess returncode stdout stderr =>
        if negb (returncode =? 0)
        then (Ok (Failure ("Failed to analyze input file: " +:+ stderr)), fs1, probed)
        else
          match json_duration rt stdout with
          | inl msg => (Ok (Failure msg), fs1, probed)
          | inr duration =>
              match build_ffmpeg_filter preset_name custom_params with
              | Raise e => (Ok (Failure (Py.str_of_exn e)), fs1, probed)
              | Ok filter_chain =>
                  let '(transform, fs2) :=
                    run rt (cmd input filter_chain output) fs1 in
                  let ran :=
                    probed ++ [Run (cmd input filter_chain output) transform] in
                  match transform with
                  | Failed_to_start e =>
                      (Ok (Failure (Py.str_of_exn (exn_of_os_error e))), fs2, ran)
                  | CompletedProcess returncode2 _ stderr2 =>
                      if negb (returncode2 =? 0)
                      then (Ok (Failure ("FFmpeg processing failed: " +:+ stderr2)),
                            fs2, ran)
                      else
                        match fs2 !! output with
                        | None =>
                            (Ok (Failure ("Output file was not created: " +:+
                                          str output)), fs2, ran)
                        | Some data =>
                            (Ok (Success duration (Py.strlen data) preset_name
                                   filter_chain), fs2, ran)
                        end
                  end
              end
          end
    end.
Proof.
  unfold process_audio_file. unfold_M.
  destruct (run rt (info_cmd input) fs) as [[e | returncode stdout stderr] fs1];
    [done |].
  cbn. destruct (returncode =? 0); cbn; [| done].
  destruct (json_duration rt stdout) as [msg | duration]; cbn; [done |].
  destruct (build_ffmpeg_filter preset_name custom_params) as [chain | e];
    cbn; [| done].
  destruct (run rt (cmd input chain output) fs1)
    as [[e | returncode2 stdout2 stderr2] fs2]; [done |].
  cbn. destruct (returncode2 =? 0); cbn; [| done].
  destruct (fs2 !! output) as [data |] eqn:Hout; cbn; [| done].
  by rewrite Hout.
Qed.


(** The [try] block of [process_audio], likewise. *)
Lemma process_audio_try_eq input output file_filename file_content preset fs :
  process_audio_try rt input output file_filename file_content preset fs
  = match open_error rt input fs with
    | Some e => (Raise (HTTPException 500 (Py.str_of_exn (exn_of_os_error e))), fs, [])
    | None =>
        let '(version, fs1) := run rt version_cmd (<[input := file_content]> fs) in
        let checked := [Run version_cmd version] in
        let unusable :=
          Raise (HTTPException 500 "FFmpeg is not installed or not working") in
        match version with
        | Failed_to_start (NotFound _) => (unusable, fs1, checked)
        | Failed_to_start (Refused msg) => (Raise (HTTPException 500 msg), fs1, checked)
        | CompletedProcess returncode _ _ =>
            if negb (returncode =? 0) then (unusable, fs1, checked)
            else
              let '(result, fs2, evs) :=
                process_audio_file rt input output preset None fs1 in
              match result with
              | Raise e =>
                  (Raise (if is_HTTPException e then e
                          else HTTPException 500 (Py.str_of_exn e)),
                   fs2, checked ++ evs)
              | Ok (Failure error) =>
                  (Raise (HTTPException 500 error), fs2, checked ++ evs)
              | Ok (Success _ _ _ _) =>
                  match fs2 !! output with
                  | None =>
                      (Raise (HTTPException 500 "Output file was not created"),
                       fs2, checked ++ evs)
                  | Some data =>
                      if Py.strlen data =? 0
                      then (Raise (HTTPException 500 "Output file is empty"),
                            fs2, checked ++ evs)
                      else (Ok {| path := output; media_type := "audio/wav";
                                  filename := "processed_" +:+ file_filename |},
                            fs2, checked ++ evs)
                  end
              end
        end
    end.
Proof.
  unfold process_audio_try. unfold_M.
  destruct (open_error rt input fs) as [e |]; [destruct e; reflexivity |].
  rewrite lookup_insert_eq. cbn -[process_audio_file].
  destruct (run rt version_cmd (<[input:=file_content]> fs))
    as [[[msg | msg] | returncode stdout stderr] fs1];
    cbn -[process_audio_file]; [done | done |].
  destruct (returncode =? 0); cbn -[process_audio_file]; [| done].
  destruct (process_audio_file rt input output preset None fs1)
    as [[[[duration size used chain | error] | e] fs2] evs]; cbn.
  - destruct (fs2 !! output) as [data |] eqn:Hout; cbn; [| by rewrite app_nil_r].
    rewrite Hout. destruct (Py.strlen data =? 0); cbn; [by rewrite app_nil_r |].
    by rewrite Hout, !app_nil_r.
  - by rewrite app_nil_r.
  - destruct e; cbn; by rewrite ?app_nil_r.
Qed.

(** The [finally] block never raises and starts no process. *)
Lemma cleanup_eq input fs : cleanup rt input fs = (Ok (), cleaned rt input fs, []).
Proof.
  unfold cleanup, cleaned. unfold_M.
  destruct (fs !! input) as [data |] eqn:Hin; cbn; [| done].
  rewrite Hin. by destruct (unlink_error rt input fs).
Qed.

Lemma process_audio_eq now file_filename file_content preset fs :
  process_audio rt now file_filename file_content preset fs
  = let input := input_path (strftime now) file_filename in
    let output := output_path (strftime now) in
    let '(r, fs1, evs) :=
      process_audio_try rt input output file_filename file_content preset fs in
    (r, cleaned rt input fs1, evs).
Proof.
  unfold process_audio, try_finally. cbn zeta.
  destruct (process_audio_try _ _ _ _ _ _ _) as [[r fs1] evs].
  by rewrite cleanup_eq, app_nil_r.
Qed.

End Unfolding.

End HandlerFacts.

(** * Scratch file names *)

Module PathsFacts.
Import Paths.

Lemma has_slash_app a b : has_slash (a +:+ b) = has_slash a || has_slash b.
Proof.
  induction a as [| c a IH]; [done |].
  change (has_slash (String c (a +:+ b)) = has_slash (String c a) || has_slash b).
  cbn. by rewrite IH, orb_assoc.
Qed.

Lemma has_slash_zeros n : has_slash (Py.zeros n) = false.
Proof.
  induction n as [| n IH]; [done |].
  change (has_slash (String "0" (Py.zeros n)) = false). by cbn.
Qed.

Lemma has_slash_uint (u : Decimal.uint) : has_slash (NilEmpty.string_of_uint u) = false.
Proof. induction u; by cbn. Qed.

Lemma has_slash_str_of_int z : has_slash (Py.str_of_int z) = false.
Proof.
  unfold Py.str_of_int, NilZero.string_of_int, NilZero.string_of_uint.
  destruct (Z.to_int z) as [u | u]; destruct u; cbn; auto using has_slash_uint.
Qed.

Lemma has_slash_padded w z : has_slash (padded w z) = false.
Proof.
  unfold padded. by rewrite has_slash_app, has_slash_zeros, has_slash_str_of_int.
Qed.

(** A timestamp is digits and one underscore. *)
Lemma has_slash_strftime t : has_slash (strftime t) = false.
Proof.
  unfold strftime. by rewrite !has_slash_app, !has_slash_padded.
Qed.

Lemma split_slash_nonempty s : split_slash s ≠ [].
Proof.
  destruct s as [| c s]; [done |]. cbn.
  destruct (Ascii.eqb c "/"); [done |]. by destruct (split_slash s).
Qed.

(** Up to the first slash, a segment is one part. *)
Lemma split_slash_first a b :
  has_slash a = false →
  split_slash (a +:+ String "/" b) = a :: split_slash b.
Proof.
  induction a as [| c a IH]; [done |].
  change (has_slash (String c a) = false →
          split_slash (String c (a +:+ String "/" b)) = String c a :: split_slash b).
  cbn. destruct (Ascii.eqb c "/"); [done |]. cbn. intros Ha. by rewrite IH.
Qed.

(** The part a segment starts with keeps the segment's first character. *)
Lemma parts_head c rest :
  c ≠ "/"%char → c ≠ "."%char →
  ∃ p ps, parts (String c rest) = String c p :: ps.
Proof.
  intros Hslash Hdot.
  assert (kept_head : ∀ p, kept (String c p) = true).
  { intros p. unfold kept. cbn. by destruct (Ascii.eqb_spec c ".") as [-> | _]. }
  assert (∃ p ps, split_slash (String c rest) = String c p :: ps) as (p & ps & Hsplit).
  { cbn [split_slash]. destruct (Ascii.eqb_spec c "/") as [-> | _]; [done |].
    destruct (split_slash rest); eauto. }
  unfold parts. rewrite Hsplit. cbn [List.filter]. rewrite kept_head. eauto.
Qed.

(** The input and the output of a request are different files, whatever
    the timestamps and the file name. *)
Lemma input_path_neq_output_path timestamp file_filename timestamp' :
  input_path timestamp file_filename ≠ output_path timestamp'.
Proof.
  unfold input_path, output_path.
  destruct (parts_head "i" ("nput_" +:+ timestamp +:+ "_" +:+ file_filename))
    as (p & ps & Hin); [done | done |].
  destruct (parts_head "o" ("utput_" +:+ timestamp' +:+ ".wav"))
    as (p' & ps' & Hout); [done | done |].
  change (TEMP_DIR ++ parts (String "i" ("nput_" +:+ timestamp +:+ "_" +:+ file_filename))
          ≠ TEMP_DIR ++ parts (String "o" ("utput_" +:+ timestamp' +:+ ".wav"))).
  rewrite Hin, Hout. by intros [=]%app_inv_head.
Qed.

(** C9 fails on the code: two requests that arrive within one second and
    carry the same file name are given the same scratch input (and any
    two requests of one second the same scratch output), because the
    name is derived from a timestamp cut to the second. *)
Theorem same_second_requests_collide :
  first_arrival ≠ second_arrival
  ∧ input_path (strftime first_arrival) "evidence.wav"
    = input_path (strftime second_arrival) "evidence.wav"
  ∧ str (input_path (strftime first_arrival) "evidence.wav")
    = "/tmp/audio_processing/input_20250301_120000_evidence.wav"
  ∧ output_path (strftime first_arrival) = output_path (strftime second_arrival)
  ∧ ∀ t us, strftime {| year := year t; month := month t; day := day t;
                        hour := hour t; minute := minute t; second := second t;
                        microsecond := us |}
            = strftime t.
Proof. repeat split; done. Qed.

Lemma climbing_parts timestamp :
  has_slash timestamp = false →
  input_path timestamp climbing_filename
  = ["tmp"; "audio_processing"; "input_" +:+ timestamp +:+ "_"; ".."; ".."; "etc"; "passwd"].
Proof.
  intros Hts. unfold input_path, climbing_filename.
  assert (has_slash ("input_" +:+ timestamp +:+ "_") = false) as Hseg.
  { by rewrite !has_slash_app, Hts. }
  assert ("input_" +:+ timestamp +:+ "_" +:+ "/../../etc/passwd"
          = ("input_" +:+ timestamp +:+ "_") +:+ String "/" "../../etc/passwd") as ->.
  { by rewrite !append_assoc. }
  change (TEMP_DIR ++ parts (("input_" +:+ timestamp +:+ "_") +:+ String "/" "../../etc/passwd")
          = ["tmp"; "audio_processing"; "input_" +:+ timestamp +:+ "_";
             ".."; ".."; "etc"; "passwd"]).
  unfold parts. rewrite (split_slash_first _ _ Hseg). reflexivity.
Qed.

(** C10: the upload's file name goes into the scratch input path as it
    is.  Whatever the time of the request, a file name with parent
    components gives an input path that holds the name verbatim and that
    leads outside the scratch directory; so it is not the case that every
    file name stays inside it. *)
Theorem upload_filename_escapes_scratch_dir (now : datetime) :
  (∃ file_filename,
     str (input_path (strftime now) file_filename)
     = "/tmp/audio_processing/input_" +:+ strftime now +:+ "_" +:+ file_filename
     ∧ resolve (input_path (strftime now) file_filename) = ["tmp"; "etc"; "passwd"]
     ∧ inside TEMP_DIR (input_path (strftime now) file_filename) = false)
  ∧ ¬ (∀ file_filename,
         inside TEMP_DIR (input_path (strftime now) file_filename) = true).
Proof.
  pose proof (climbing_parts (strftime now) (has_slash_strftime now)) as Hparts.
  assert (resolve (input_path (strftime now) climbing_filename)
          = ["tmp"; "etc"; "passwd"]) as Hres.
  { rewrite Hparts. reflexivity. }
  assert (inside TEMP_DIR (input_path (strftime now) climbing_filename) = false)
    as Hout.
  { unfold inside. rewrite Hres. reflexivity. }
  split.
  - exists climbing_filename. split; [| done].
    rewrite Hparts. unfold str, climbing_filename. cbn [Py.join].
    rewrite !append_assoc. reflexivity.
  - intros Hall. specialize (Hall climbing_filename). congruence.
Qed.

Example plain_filename_stays_inside :
  inside TEMP_DIR (input_path (strftime first_arrival) "evidence.wav") = true.
Proof. reflexivity. Qed.

End PathsFacts.

(** * Properties of the request handler *)

Module HandlerClaims.
Import Paths Handler HandlerFacts PathsFacts Scenarios.

Section Cleanup.
Variable rt : runtime.
Implicit Types (fs : filesystem) (input p : Path).

Lemma cleaned_other input p fs : p ≠ input → cleaned rt input fs !! p = fs !! p.
Proof.
  intros Hne. unfold cleaned.
  destruct (fs !! input); [| done].
  destruct (unlink_error rt input fs); [done |]. by rewrite lookup_delete_ne.
Qed.


Lemma strlen_zero data : (Py.strlen data =? 0) = false → data ≠ "".
Proof. by intros Hlen ->. Qed.

End Cleanup.





Ltac leaf := cbv beta iota zeta; intros [= <- <- <-].

Ltac pick_transform Hev Hrun :=
  repeat (apply elem_of_cons in Hev as [-> | Hev]);
  try (by apply elem_of_nil in Hev); try discriminate Hrun.

(** C6, amended: [process_audio] returns the file response only when the
    transform command ran last, exited with zero and left a non-empty
    file at the output path.  Whenever the transform command was run and
    one of the three fails, the request ends in an error, never in a
    response: for a non-zero exit the error carries the tool's stderr;
    for a zero exit without output, or with an empty one, it is a fixed
    message that holds nothing of what the tool printed. *)
Theorem completed_only_after_checked_transform (rt : runtime) (now : datetime)
    (file_filename file_content preset : string) (fs : filesystem)
    (r : result FileResponse) (fs' : filesystem) (evs : list event) :
  process_audio rt now file_filename file_content preset fs = (r, fs', evs) →
  let input := input_path (strftime now) file_filename in
  let output := output_path (strftime now) in
  let response :=
    {| path := output; media_type := "audio/wav";
       filename := "processed_" +:+ file_filename |} in
  (∀ resp, r = Ok resp →
     resp = response
     ∧ ∃ chain stdout stderr data before,
         build_ffmpeg_filter preset None = Ok chain
         ∧ evs = before ++ [Run (cmd input chain output)
                              (CompletedProcess 0 stdout stderr)]
         ∧ fs' !! output = Some data
         ∧ data ≠ "")
  ∧ (∀ ev, ev ∈ evs → is_transform_run ev = true →
       ∃ chain o,
         build_ffmpeg_filter preset None = Ok chain
         ∧ ev = Run (cmd input chain output) o
         ∧ match o with
           | Failed_to_start e =>
               r = Raise (HTTPException 500 (Py.str_of_exn (exn_of_os_error e)))
           | CompletedProcess returncode _ stderr =>
               if negb (returncode =? 0)
               then r = Raise (HTTPException 500
                                 ("FFmpeg processing failed: " +:+ stderr))
               else
                 match fs' !! output with
                 | None =>
                     r = Raise (HTTPException 500
                                  ("Output file was not created: " +:+ str output))
                 | Some data =>
                     if Py.strlen data =? 0
                     then r = Raise (HTTPException 500 "Output file is empty")
                     else r = Ok response
                 end
           end).
Proof.
  intros Hrun input output response. revert Hrun.
  rewrite process_audio_eq. cbn zeta. fold input output.
  assert (output ≠ input) as Hne.
  { intros Heq. by apply (input_path_neq_output_path (strftime now) file_filename
                            (strftime now)). }
  subst response. clearbody input output.
  rewrite process_audio_try_eq.
  destruct (open_error rt input fs) as [e |].
  { leaf. split; [done |]. intros ev Hev. by apply elem_of_nil in Hev. }
  destruct (run rt version_cmd (<[input:=file_content]> fs))
    as [[[msg | msg] | returncode v_out v_err] fs1].
  1, 2: leaf; split; [done |]; intros ev Hev Htr; pick_transform Hev Htr.
  destruct (returncode =? 0) eqn:Hrc; cbn [negb].
  2: { leaf. split; [done |]. intros ev Hev Htr. pick_transform Hev Htr. }
  rewrite process_audio_file_eq.
  destruct (run rt (info_cmd input) fs1) as [[e | returncode' stdout stderr] fs2].
  { leaf. split; [done |]. intros ev Hev Htr. pick_transform Hev Htr. }
  destruct (returncode' =? 0) eqn:Hrc'; cbn [negb].
  2: { leaf. split; [done |]. intros ev Hev Htr. pick_transform Hev Htr. }
  destruct (json_duration rt stdout) as [msg | duration].
  { leaf. split; [done |]. intros ev Hev Htr. pick_transform Hev Htr. }
  destruct (build_ffmpeg_filter preset None) as [chain | e] eqn:Hchain.
  2: { leaf. split; [done |]. intros ev Hev Htr. pick_transform Hev Htr. }
  destruct (run rt (cmd input chain output) fs2)
    as [[e | returncode2 stdout2 stderr2] fs3].
  { leaf. split; [done |]. intros ev Hev Htr. pick_transform Hev Htr.
    by exists chain, (Failed_to_start e). }
  destruct (returncode2 =? 0) eqn:Hrc2; cbn [negb].
  2: { leaf. split; [done |]. intros ev Hev Htr. pick_transform Hev Htr.
       exists chain, (CompletedProcess returncode2 stdout2 stderr2).
       by rewrite Hrc2. }
  destruct (fs3 !! output) as [data |] eqn:Hout.
  2: { leaf. split; [done |]. intros ev Hev Htr. pick_transform Hev Htr.
       exists chain, (CompletedProcess returncode2 stdout2 stderr2).
       by rewrite Hrc2, cleaned_other, Hout. }
  cbv beta iota zeta. rewrite Hout.
  destruct (Py.strlen data =? 0) eqn:Hlen; intros [= <- <- <-].
  - split; [done |]. intros ev Hev Htr. pick_transform Hev Htr.
    exists chain, (CompletedProcess returncode2 stdout2 stderr2).
    by rewrite Hrc2, cleaned_other, Hout, Hlen.
  - split.
    + intros resp [= <-]. split; [done |].
      apply Z.eqb_eq in Hrc2 as ->.
      exists chain, stdout2, stderr2, data,
        [Run version_cmd (CompletedProcess returncode v_out v_err);
         Run (info_cmd input) (CompletedProcess returncode' stdout stderr)].
      rewrite cleaned_other by done. eauto using strlen_zero.
    + intros ev Hev Htr. pick_transform Hev Htr.
      exists chain, (CompletedProcess returncode2 stdout2 stderr2).
      by rewrite Hrc2, cleaned_other, Hout, Hlen.
Qed.

Lemma completed_only_after_checked_transform_witness :
  ∃ data,
    (process_audio healthy first_arrival "evidence.wav" "bytes" "whisper" ∅).1.2
      !! sample_output = Some data
    ∧ data ≠ "".
Proof.
  destruct (process_audio healthy first_arrival "evidence.wav" "bytes" "whisper" ∅)
    as [[r fs'] evs] eqn:Hrun.
  destruct (completed_only_after_checked_transform _ _ _ _ _ _ _ _ _ Hrun) as [Hok _].
  assert (r = Ok {| path := sample_output; media_type := "audio/wav";
                    filename := "processed_evidence.wav" |}) as Hr.
  { change r with (r, fs', evs).1.1. rewrite <- Hrun. vm_compute. reflexivity. }
  destruct (Hok _ Hr) as (_ & chain & stdout & stderr & data & before & _ & _ & Hdata & Hne).
  exists data. split; [exact Hdata | exact Hne].
Defined.

(** C6 as stated fails where it says the error carries the tool's
    diagnostic output: here the transform exits with zero, prints a
    diagnostic and writes nothing, and the request fails with a message
    that holds none of it. *)
Lemma zero_exit_without_output_drops_diagnostics :
  ∃ fs' evs chain,
    process_audio silent first_arrival "evidence.wav" "bytes" "whisper" ∅
    = (Raise (HTTPException 500
                ("Output file was not created: " +:+
                 "/tmp/audio_processing/output_20250301_120000.wav")), fs', evs)
    ∧ build_ffmpeg_filter "whisper" None = Ok chain
    ∧ last evs = Some (Run (cmd sample_input chain sample_output)
                         (CompletedProcess 0 "" "moov atom not found"))
    ∧ contains "moov atom not found"
        ("Output file was not created: " +:+
         "/tmp/audio_processing/output_20250301_120000.wav") = false.
Proof.
  do 3 eexists. split; [vm_compute; reflexivity |].
  split; [vm_compute; reflexivity |]. split; vm_compute; reflexivity.
Qed.





End HandlerClaims.


(** * Further properties of the chain builder *)

Module BuilderExtras.

Implicit Types (preset : Preset) (filters : list FilterStage).

Lemma filter_bands_none (P : FilterStage → bool) (bs : list band) :
  (∀ f g, P (Equalizer f g) = false) →
  List.filter P (map equalizer_stage bs) = [].
Proof.
  intros HP. induction bs as [| b bs IH]; [done |].
  cbn. unfold equalizer_stage at 1. by rewrite HP.
Qed.

Lemma filter_compressor_none (P : FilterStage → bool) preset comp :
  (∀ t r, P (Acompressor t r) = false) →
  compressor_stage preset = Ok comp →
  List.filter P comp = [].
Proof.
  intros HP Hc. destruct (Z.le_gt_cases (dynamic_boost preset) 0) as [Hle | Hpos].
  - rewrite compressor_stage_off in Hc by done. by injection Hc as <-.
  - destruct (compressor_stage_on preset comp) as (? & ? & _ & _ & ->); [lia | done |].
    cbn. by rewrite HP.
Qed.

Lemma compressor_stage_length preset comp :
  compressor_stage preset = Ok comp →
  length comp = count_if (0 <? dynamic_boost preset).
Proof.
  intros Hc. destruct (Z.ltb_spec 0 (dynamic_boost preset)) as [Hpos | Hle].
  - by destruct (compressor_stage_on preset comp Hpos Hc) as (? & ? & _ & _ & ->).
  - rewrite compressor_stage_off in Hc by done. by injection Hc as <-.
Qed.

Lemma compressor_stage_rank preset comp :
  compressor_stage preset = Ok comp → Forall (λ s, stage_rank s = 4%nat) comp.
Proof.
  intros Hc. destruct (Z.ltb_spec 0 (dynamic_boost preset)) as [Hpos | Hle].
  - destruct (compressor_stage_on preset comp Hpos Hc) as (? & ? & _ & _ & ->).
    by repeat constructor.
  - rewrite compressor_stage_off in Hc by done. injection Hc as <-. constructor.
Qed.

(** A list in pieces, each of one rank, the ranks going up, is sorted. *)
Lemma sorted_pieces (n : nat) (l rest : list nat) :
  Forall (λ x, x = n) l → Forall (λ y, n ≤ y)%nat rest →
  StronglySorted le rest → StronglySorted le (l ++ rest).
Proof.
  intros Hl Hrest Hsorted. induction l as [| x l IH]; [done |].
  apply Forall_cons in Hl as [-> Hl]. cbn. constructor; [by apply IH |].
  apply Forall_app. split; [| done].
  eapply Forall_impl; [exact Hl |]. cbn. lia.
Qed.

Lemma ranks_of_bands (bs : list band) :
  Forall (λ x, x = 5%nat) (map stage_rank (map equalizer_stage bs)).
Proof. induction bs; by constructor. Qed.

(** X1: the stages of every chain stand in the order of the builder's
    eight steps: high-pass, low-pass, noise reduction, compressor, the band
    equalizers, voice emphasis, limiter, output gain.  No stage ever
    precedes a stage of an earlier step. *)
Theorem stages_follow_the_steps preset filters :
  build_stages preset = Ok filters →
  StronglySorted le (map stage_rank filters).
Proof.
  intros (comp & Hc & ->)%build_stages_inv.
  pose proof (compressor_stage_rank preset comp Hc) as Hcomp.
  assert (∀ n, (n ≤ 4)%nat → Forall (λ y, n ≤ y)%nat (map stage_rank comp)) as Hcomp_ge.
  { intros n Hn. apply Forall_fmap. eapply Forall_impl; [exact Hcomp |]. cbn. lia. }
  assert (∀ n, (n ≤ 5)%nat →
            Forall (λ y, n ≤ y)%nat
              (map stage_rank (map equalizer_stage (eq_bands preset)))) as Hbands_ge.
  { intros n Hn. eapply Forall_impl; [apply ranks_of_bands |]. cbn. lia. }
  unfold optional_stages. rewrite <- !app_assoc, !map_app.
  repeat first
    [ apply (sorted_pieces 1); [by case_match; cbn; repeat constructor | |]
    | apply (sorted_pieces 2); [by case_match; cbn; repeat constructor | |]
    | apply (sorted_pieces 3); [by case_match; cbn; repeat constructor | |]
    | apply (sorted_pieces 4); [by apply Forall_fmap | |]
    | apply (sorted_pieces 5); [by apply ranks_of_bands | |]
    | apply (sorted_pieces 6); [by case_match; cbn; repeat constructor | |] ].
  all: rewrite ?Forall_app; repeat split;
    try (by apply Hcomp_ge; lia); try (by apply Hbands_ge; lia);
    try (case_match; cbn); repeat constructor; try lia.
Qed.

Lemma stages_follow_the_steps_witness :
  StronglySorted le
    (map stage_rank
       [Acompressor (-23) 2.8; Equalizer 100 10; Equalizer 200 (-10); Equalizer 300 7;
        Alimiter; Volume]).
Proof. apply (stages_follow_the_steps loud_preset). reflexivity. Defined.

(** X2: a chain has one stage for each trigger that is on, one for each
    band, and the two closing stages; so between [2 + bands] and
    [7 + bands] stages. *)
Theorem chain_length preset filters :
  build_stages preset = Ok filters →
  length filters
  = (count_if (0 <? highpass preset)%Z + count_if (0 <? lowpass preset)%Z
     + count_if (0 <? noise_reduction preset)%float
     + count_if (0 <? dynamic_boost preset)%Z
     + length (eq_bands preset)
     + count_if (0 <? voice_emphasis preset)%Z + 2)%nat
  ∧ (2 + length (eq_bands preset) ≤ length filters ≤ 7 + length (eq_bands preset))%nat.
Proof.
  intros (comp & Hc & ->)%build_stages_inv.
  pose proof (compressor_stage_length preset comp Hc) as Hlen.
  unfold optional_stages. rewrite !length_app, length_map, Hlen.
  unfold count_if. repeat case_match; cbn; lia.
Qed.

Lemma chain_length_witness :
  length [Acompressor (-23) 2.8; Equalizer 100 10; Equalizer 200 (-10);
          Equalizer 300 7; Alimiter; Volume]
  = (count_if (0 <? highpass loud_preset)%Z + count_if (0 <? lowpass loud_preset)%Z
     + count_if (0 <? noise_reduction loud_preset)%float
     + count_if (0 <? dynamic_boost loud_preset)%Z
     + length (eq_bands loud_preset)
     + count_if (0 <? voice_emphasis loud_preset)%Z + 2)%nat.
Proof. apply (chain_length loud_preset). reflexivity. Defined.

Lemma filter_single (P : FilterStage → bool) (b : bool) (s : FilterStage) :
  List.filter P (if b then [s] else []) = if b && P s then [s] else [].
Proof. destruct b; cbn; [by destruct (P s) | done]. Qed.

(** The stages of one kind in [optional_stages], for a kind other than
    compressor and band equalizer. *)
Lemma filter_optional_stages (P : FilterStage → bool) preset comp :
  (∀ t r, P (Acompressor t r) = false) →
  (∀ f g, P (Equalizer f g) = false) →
  P Alimiter = false → P Volume = false →
  compressor_stage preset = Ok comp →
  List.filter P (optional_stages preset comp ++ [Alimiter; Volume])
  = (if (0 <? highpass preset) && P (Highpass (highpass preset))
     then [Highpass (highpass preset)] else [])
    ++ (if (0 <? lowpass preset) && P (Lowpass (lowpass preset))
        then [Lowpass (lowpass preset)] else [])
    ++ (if (0 <? noise_reduction preset)%float && P (Afftdn (noise_reduction preset))
        then [Afftdn (noise_reduction preset)] else [])
    ++ (if (0 <? voice_emphasis preset)
           && P (VoiceEqualizer 1000 (Z.min 6 (voice_emphasis preset)))
        then [VoiceEqualizer 1000 (Z.min 6 (voice_emphasis preset))] else []).
Proof.
  intros Hcomp Hband Hlim Hvol Hc. unfold optional_stages.
  rewrite !List.filter_app, !filter_single.
  rewrite (filter_compressor_none P preset comp Hcomp Hc), filter_bands_none by done.
  cbn. rewrite Hlim, Hvol. by rewrite !app_nil_r.
Qed.

(** X3: the voice-emphasis stage is there exactly when [voice_emphasis] is
    positive; it is centred on 1000 Hz with width 800 and its gain is
    [min(6, voice_emphasis)]: the stored value up to 6, and 6 beyond. *)
Theorem voice_emphasis_is_capped preset filters :
  build_stages preset = Ok filters →
  List.filter is_voice_stage filters
  = (if 0 <? voice_emphasis preset
     then [VoiceEqualizer 1000 (Z.min 6 (voice_emphasis preset))] else [])
  ∧ (0 < voice_emphasis preset →
     0 < Z.min 6 (voice_emphasis preset) ≤ 6
     ∧ (voice_emphasis preset ≤ 6 → Z.min 6 (voice_emphasis preset) = voice_emphasis preset)
     ∧ (6 < voice_emphasis preset → Z.min 6 (voice_emphasis preset) = 6))
  ∧ ∀ g, render (VoiceEqualizer 1000 g)
         = "equalizer=f=1000:t=o:g=" +:+ Py.str_of_int g +:+ ":w=800".
Proof.
  intros (comp & Hc & ->)%build_stages_inv. split; [| split; [lia | done]].
  rewrite (filter_optional_stages is_voice_stage) by done.
  cbn. by rewrite ?andb_false_r, ?andb_true_r.
Qed.

Lemma voice_emphasis_is_capped_witness :
  List.filter is_voice_stage
    [Highpass 90; Afftdn 1.5; Acompressor (-21.25) 3.5; Equalizer 440 10;
     VoiceEqualizer 1000 6; Alimiter; Volume]
  = [VoiceEqualizer 1000 6].
Proof.
  exact (proj1 (voice_emphasis_is_capped (update silent_preset full_overrides)
                  [Highpass 90; Afftdn 1.5; Acompressor (-21.25) 3.5; Equalizer 440 10;
                   VoiceEqualizer 1000 6; Alimiter; Volume] eq_refl)).
Defined.

(** X4: the high-pass, low-pass and noise-reduction stages are there
    exactly when their value is greater than zero, at most once each, and
    they carry the value as stored: no cutoff is checked against the other,
    and the noise-reduction strength is not limited to 1. *)
Theorem optional_filters_follow_their_triggers preset filters :
  build_stages preset = Ok filters →
  List.filter is_highpass filters
  = (if 0 <? highpass preset then [Highpass (highpass preset)] else [])
  ∧ List.filter is_lowpass filters
    = (if 0 <? lowpass preset then [Lowpass (lowpass preset)] else [])
  ∧ List.filter is_afftdn filters
    = (if (0 <? noise_reduction preset)%float
       then [Afftdn (noise_reduction preset)] else [])
  ∧ ∀ f nr,
      render (Highpass f) = "highpass=f=" +:+ Py.str_of_int f
      ∧ render (Lowpass f) = "lowpass=f=" +:+ Py.str_of_int f
      ∧ render (Afftdn nr) = "afftdn=nr=" +:+ Py.repr_float nr +:+ ":nf=-20:nt=w".
Proof.
  intros (comp & Hc & ->)%build_stages_inv.
  rewrite !(filter_optional_stages _ preset comp) by done.
  cbn. by rewrite ?andb_false_r, ?andb_true_r, ?app_nil_r.
Qed.

Lemma optional_filters_follow_their_triggers_witness :
  List.filter is_lowpass
    [Highpass 90; Afftdn 1.5; Acompressor (-21.25) 3.5; Equalizer 440 10;
     VoiceEqualizer 1000 6; Alimiter; Volume] = []
  ∧ List.filter is_afftdn
      [Highpass 90; Afftdn 1.5; Acompressor (-21.25) 3.5; Equalizer 440 10;
       VoiceEqualizer 1000 6; Alimiter; Volume] = [Afftdn 1.5].
Proof.
  destruct (optional_filters_follow_their_triggers (update silent_preset full_overrides)
              [Highpass 90; Afftdn 1.5; Acompressor (-21.25) 3.5; Equalizer 440 10;
               VoiceEqualizer 1000 6; Alimiter; Volume] eq_refl) as (_ & Hlp & Hnr & _).
  split; [exact Hlp | exact Hnr].
Defined.

(** An int of [n] digits, all of them 1, has [n] digits. *)
Lemma string_of_repunit (n : nat) :
  String.length (NilEmpty.string_of_uint (Py.repunit n)) = n.
Proof. induction n as [| n IH]; [done |]. cbn. by rewrite IH. Qed.

Lemma fits_overlong : Py.fits overlong = false.
Proof.
  unfold Py.fits, Py.digits, Py.str_of_int, overlong.
  rewrite Z.abs_eq by apply N2Z.is_nonneg.
  change (Z.of_uint (Py.repunit 4301))
    with (Z.of_int (Decimal.Pos (Py.repunit 4301))).
  rewrite DecimalZ.to_of.
  change (Decimal.norm (Decimal.Pos (Py.repunit 4301)))
    with (Decimal.Pos (Py.repunit 4301)).
  change (NilZero.string_of_int (Decimal.Pos (Py.repunit 4301)))
    with (NilEmpty.string_of_uint (Py.repunit 4301)).
  unfold Py.strlen. rewrite string_of_repunit. reflexivity.
Qed.

(** When [build_stages] raises, and what. *)
Lemma build_stages_raises preset (e : exn) :
  (cutoffs_fit preset = false ∧ e = Py.int_too_long)
  ∨ (cutoffs_fit preset = true
     ∧ 4 * Py.float_limit ≤ dynamic_boost preset
     ∧ e = Py.division_too_large)
  ∨ (cutoffs_fit preset = true
     ∧ dynamic_boost preset < 4 * Py.float_limit
     ∧ bands_fit preset = false
     ∧ e = Py.int_too_long)
  ↔ build_stages preset = Raise e.
Proof.
  rewrite build_stages_eq. destruct (cutoffs_fit preset) eqn:Hcut.
  2: { split; [| intros [= <-]; by left].
       by intros [[_ ->] | [([=] & _) | ([=] & _)]]. }
  destruct (Z.le_gt_cases (4 * Py.float_limit) (dynamic_boost preset)) as [Hbig | Hsmall].
  { rewrite compressor_stage_overflow by done. cbn. split.
    - intros [[[=] _] | [(_ & _ & ->) | (_ & ? & _)]]; [done | lia].
    - intros [= <-]. right. by left. }
  destruct (compressor_stage_total preset) as [comp Hc]; [lia |].
  rewrite Hc. cbn. destruct (bands_fit preset) eqn:Hbands; split.
  - intros [[[=] _] | [(_ & ? & _) | (_ & _ & [=] & _)]]. lia.
  - done.
  - intros [[[=] _] | [(_ & ? & _) | (_ & _ & _ & ->)]]; [lia | done].
  - intros [= <-]. by do 2 right.
Qed.

Lemma build_stages_returns preset :
  (printable preset = true ∧ dynamic_boost preset < 4 * Py.float_limit)
  ↔ ∃ filters, build_stages preset = Ok filters.
Proof.
  split; [intros [Hprint Hsmall]; by apply build_stages_total |].
  intros [filters Hbuild]. rewrite build_stages_eq in Hbuild. unfold printable.
  destruct (cutoffs_fit preset); [| done].
  destruct (Z.le_gt_cases (4 * Py.float_limit) (dynamic_boost preset)) as [Hbig | Hsmall].
  { by rewrite compressor_stage_overflow in Hbuild. }
  by destruct (compressor_stage preset), (bands_fit preset).
Qed.

(** X5: for a preset name and overrides whose values have the types of
    the catalog's, [build_ffmpeg_filter] raises in three cases only: the
    name is not in the catalog ([ValueError]); an int that the chain's
    text holds, a cutoff in use or a band's frequency, has more than 4300
    digits ([ValueError] of the conversion); the [dynamic_boost] in force
    is so large that its quotient does not fit a float ([OverflowError]).
    They are met in the order of the builder's steps: the cutoffs, the
    division, the bands.  In every other case it returns a chain. *)
Theorem builder_raises_in_three_cases_only (preset_name : string)
    (custom_params : option Overrides) :
  (∀ e,
     build_ffmpeg_filter preset_name custom_params = Raise e ↔
     (Py.dict_get PRESETS preset_name = None
      ∧ e = ValueError ("Unknown preset: " +:+ preset_name))
     ∨ (∃ base,
          Py.dict_get PRESETS preset_name = Some base
          ∧ let preset := merged_preset base custom_params in
            (cutoffs_fit preset = false ∧ e = Py.int_too_long)
            ∨ (cutoffs_fit preset = true
               ∧ 4 * Py.float_limit ≤ dynamic_boost preset
               ∧ e = Py.division_too_large)
            ∨ (cutoffs_fit preset = true
               ∧ dynamic_boost preset < 4 * Py.float_limit
               ∧ bands_fit preset = false
               ∧ e = Py.int_too_long)))
  ∧ ((∃ chain, build_ffmpeg_filter preset_name custom_params = Ok chain) ↔
     ∃ base,
       Py.dict_get PRESETS preset_name = Some base
       ∧ printable (merged_preset base custom_params) = true
       ∧ dynamic_boost (merged_preset base custom_params) < 4 * Py.float_limit).
Proof.
  unfold build_ffmpeg_filter.
  destruct (Py.dict_get PRESETS preset_name) as [base |] eqn:Hget.
  - cbn zeta. split.
    + intros e. split.
      * destruct (build_stages (merged_preset base custom_params)) as [filters | e']
          eqn:Hbuild; cbn; [done |].
        intros [= <-]. right. exists base. split; [done |].
        by apply build_stages_raises.
      * intros [[[=] _] | (base' & [= <-] & Hcase)].
        apply build_stages_raises in Hcase. by rewrite Hcase.
    + split.
      * intros [chain Hchain].
        destruct (build_stages (merged_preset base custom_params)) as [filters | e']
          eqn:Hbuild; [| done].
        exists base. split; [done |]. apply build_stages_returns. by exists filters.
      * intros (base' & [= <-] & Hprint & Hsmall).
        destruct (build_stages_total _ Hprint Hsmall) as [filters ->]. cbn. by eauto.
  - split.
    + intros e. split.
      * intros [= <-]. by left.
      * by intros [[_ ->] | (? & [=] & _)].
    + split; [by intros [? [=]] | by intros (? & [=] & _)].
Qed.

Lemma builder_raises_in_three_cases_only_witness :
  build_ffmpeg_filter "telephone" None = Raise (ValueError "Unknown preset: telephone")
  ∧ build_ffmpeg_filter "whisper" (Some overlong_band) = Raise Py.int_too_long
  ∧ build_ffmpeg_filter "whisper" (Some overflowing_boost)
    = Raise Py.division_too_large.
Proof.
  split; [| split].
  - apply (builder_raises_in_three_cases_only "telephone" None). left. by split.
  - apply (builder_raises_in_three_cases_only "whisper" (Some overlong_band)).
    right. eexists. split; [reflexivity |]. do 2 right.
    split; [reflexivity |]. split; [reflexivity |]. split; [| reflexivity].
    change (Py.fits overlong && true = false). by rewrite fits_overlong.
  - apply (builder_raises_in_three_cases_only "whisper" (Some overflowing_boost)).
    right. eexists. split; [reflexivity |]. right. left.
    split; [reflexivity |]. split; [| reflexivity].
    change (4 * Py.float_limit ≤ 4 * Py.float_limit). lia.
Defined.

Lemma build_stages_tuning (p q : Preset) :
  tuning p = tuning q → build_stages p = build_stages q.
Proof.
  unfold tuning. intros [= Hhp Hlp Hnr Hdb Hve Heq].
  unfold build_stages, compressor_stage. by rewrite Hhp, Hlp, Hnr, Hdb, Hve, Heq.
Qed.

Lemma tuning_merged (base : Preset) (o : Overrides) :
  tuning (merged_preset base (Some o)) = tuning (update base o).
Proof.
  cbn. destruct (overrides_truthy o) eqn:Htruthy; [done |].
  unfold overrides_truthy in Htruthy.
  destruct o as [n d hp lp nr db ve eq]; cbn in *.
  destruct n, d, hp, lp, nr, db, ve, eq; cbn in Htruthy; try done.
Qed.

(** X6: the keys ["name"] and ["description"] of [custom_params] have no
    effect on the chain, whether present or not, and an empty
    [custom_params] is the same as none. *)
Theorem metadata_and_empty_overrides_change_nothing (preset_name : string) :
  build_ffmpeg_filter preset_name (Some no_overrides)
  = build_ffmpeg_filter preset_name None
  ∧ ∀ o n d,
      build_ffmpeg_filter preset_name (Some (with_metadata o n d))
      = build_ffmpeg_filter preset_name (Some o).
Proof.
  split; [done |]. intros o n d. unfold build_ffmpeg_filter.
  destruct (Py.dict_get PRESETS preset_name) as [base |]; [| done].
  rewrite (build_stages_tuning (merged_preset base (Some (with_metadata o n d)))
             (merged_preset base (Some o))); [done |].
  by rewrite !tuning_merged.
Qed.

(** X7: when [custom_params] sets all six keys the builder reads, the
    chain is the same for every preset of the catalog: nothing of the
    named preset is left in it. *)
Theorem complete_overrides_decide_the_chain (name1 name2 : string) (o : Overrides) :
  tuning_complete o = true →
  is_Some (Py.dict_get PRESETS name1) →
  is_Some (Py.dict_get PRESETS name2) →
  build_ffmpeg_filter name1 (Some o) = build_ffmpeg_filter name2 (Some o).
Proof.
  intros Hfull [base1 H1] [base2 H2]. unfold build_ffmpeg_filter. rewrite H1, H2.
  rewrite (build_stages_tuning (merged_preset base1 (Some o))
             (merged_preset base2 (Some o))); [done |].
  rewrite !tuning_merged. unfold tuning_complete in Hfull.
  destruct o as [n d hp lp nr db ve eq]; cbn in *.
  destruct hp, lp, nr, db, ve, eq; cbn in Hfull; try done.
Qed.

Lemma complete_overrides_decide_the_chain_witness :
  build_ffmpeg_filter "whisper" (Some full_overrides)
  = build_ffmpeg_filter "tv_suppress" (Some full_overrides).
Proof.
  apply complete_overrides_decide_the_chain; [reflexivity | by eexists | by eexists].
Defined.

Lemma dict_get_elem_of {V} (d : list (string * V)) key v :
  Py.dict_get d key = Some v → v ∈ map snd d.
Proof.
  induction d as [| [k v'] d IH]; [done |]. cbn.
  destruct (String.eqb k key).
  - intros [= ->]. apply elem_of_cons. by left.
  - intros Hrest. apply elem_of_cons. right. by apply IH.
Qed.

(** X8: for the six presets of the catalog, used without overrides, every
    optional stage is present and no limit is hit: each band keeps its
    stored gain, the voice gain is the stored [voice_emphasis], and the
    compressor ratio lies between 2 and 4. *)
Theorem catalog_presets_hit_no_limit (preset_name : string) (preset : Preset) :
  Py.dict_get PRESETS preset_name = Some preset →
  ∃ threshold ratio,
    build_stages preset
    = Ok ([Highpass (highpass preset); Lowpass (lowpass preset);
           Afftdn (noise_reduction preset); Acompressor threshold ratio]
          ++ map (λ b, Equalizer (freq b) (gain b)) (eq_bands preset)
          ++ [VoiceEqualizer 1000 (voice_emphasis preset); Alimiter; Volume])
    ∧ (2 <? ratio)%float = true
    ∧ (ratio <=? 4)%float = true.
Proof.
  intros Hget%dict_get_elem_of. revert preset Hget. apply Forall_forall.
  repeat constructor; do 2 eexists; (split; [vm_compute; reflexivity |]);
    split; vm_compute; reflexivity.
Qed.

Lemma catalog_presets_hit_no_limit_witness :
  ∃ threshold ratio,
    build_stages
      {| name := "Breath Detection";
         description := "Optimized for breathing, minimal processing (100-2000 Hz)";
         highpass := 100; lowpass := 2000; noise_reduction := 0.3;
         dynamic_boost := 12; voice_emphasis := 2;
         eq_bands := [Band 200 2; Band 500 3; Band 1000 2] |}
    = Ok ([Highpass 100; Lowpass 2000; Afftdn 0.3; Acompressor threshold ratio]
          ++ [Equalizer 200 2; Equalizer 500 3; Equalizer 1000 2]
          ++ [VoiceEqualizer 1000 2; Alimiter; Volume])
    ∧ (2 <? ratio)%float = true
    ∧ (ratio <=? 4)%float = true.
Proof. exact (catalog_presets_hit_no_limit "breath" _ eq_refl). Defined.

End BuilderExtras.


(** * Further properties of the scratch file names *)

Module PathsExtras.
Import Paths PathsFacts Clock.

(** A check that holds on each of the [n] integers from [lo] on. *)
Lemma range_check (P : Z → bool) (lo n : Z) :
  forallb (λ k, P (lo + Z.of_nat k)) (seq 0 (Z.to_nat n)) = true →
  ∀ z, lo ≤ z < lo + n → P z = true.
Proof.
  intros Hall z Hz. rewrite forallb_forall in Hall.
  replace z with (lo + Z.of_nat (Z.to_nat (z - lo))) by lia.
  apply Hall, in_seq. lia.
Qed.

Lemma two_digit_fields z : 0 ≤ z < 100 → field_ok 2 z = true.
Proof. apply (range_check (field_ok 2) 0 100). vm_compute. reflexivity. Qed.

Lemma four_digit_fields z : 0 ≤ z < 10000 → field_ok 4 z = true.
Proof. apply (range_check (field_ok 4) 0 10000). vm_compute. reflexivity. Qed.

Lemma field_ok_length w z : field_ok w z = true → String.length (padded w z) = w.
Proof. unfold field_ok. intros [Hlen _]%andb_true_iff. by apply Nat.eqb_eq. Qed.

Lemma field_ok_inj w z1 z2 :
  field_ok w z1 = true → field_ok w z2 = true →
  padded w z1 = padded w z2 → z1 = z2.
Proof.
  unfold field_ok. intros [_ H1%bool_decide_eq_true]%andb_true_iff
    [_ H2%bool_decide_eq_true]%andb_true_iff Heq.
  rewrite Heq in H1. congruence.
Qed.

Lemma length_append (a b : string) :
  String.length (a +:+ b) = (String.length a + String.length b)%nat.
Proof. induction a as [| c a IH]; [done |]. exact (f_equal S IH). Qed.

(** Two concatenations with first pieces of one length agree piecewise. *)
Lemma append_inj_length (a1 a2 b1 b2 : string) :
  String.length a1 = String.length a2 →
  a1 +:+ b1 = a2 +:+ b2 → a1 = a2 ∧ b1 = b2.
Proof.
  revert a2. induction a1 as [| c a1 IH]; intros [| c2 a2] Hlen Heq; try done.
  injection Hlen as Hlen.
  change (String c (a1 +:+ b1) = String c2 (a2 +:+ b2)) in Heq.
  injection Heq as -> Heq. destruct (IH _ Hlen Heq) as [-> ->]. done.
Qed.


Lemma split_slash_none s : has_slash s = false → split_slash s = [s].
Proof.
  induction s as [| c s IH]; [done |]. cbn.
  destruct (Ascii.eqb c "/"); [done |]. cbn. intros Hs. by rewrite IH.
Qed.

(** A slash-free start of a segment merges into the segment's first part. *)
Lemma split_slash_prefix a f :
  has_slash a = false →
  ∃ p ps, split_slash f = p :: ps ∧ split_slash (a +:+ f) = (a +:+ p) :: ps.
Proof.
  induction a as [| c a IH].
  - intros _. destruct (split_slash f) as [| p ps] eqn:Hf.
    + by apply split_slash_nonempty in Hf.
    + by exists p, ps.
  - change (has_slash (String c a) = false →
            ∃ p ps, split_slash f = p :: ps
                    ∧ split_slash (String c (a +:+ f)) = String c (a +:+ p) :: ps).
    cbn. destruct (Ascii.eqb c "/"); [done |]. cbn. intros Ha.
    destruct (IH Ha) as (p & ps & Hf & ->). by exists p, ps.
Qed.

Lemma resolve_onto_plain (above : list string) (p : Path) :
  ".." ∉ p → resolve_onto above p = rev above ++ p.
Proof.
  revert above. induction p as [| part p IH]; intros above Hp.
  - cbn. by rewrite app_nil_r.
  - apply not_elem_of_cons in Hp as [Hpart Hp]. cbn.
    destruct (String.eqb_spec part "..") as [-> | _]; [done |].
    rewrite IH by done. cbn. by rewrite <- app_assoc.
Qed.

Lemma inside_plain (q : list string) :
  ".." ∉ q → inside TEMP_DIR (TEMP_DIR ++ q) = true.
Proof.
  intros Hq. unfold inside, resolve. rewrite resolve_onto_plain.
  - apply bool_decide_eq_true_2. exists q. reflexivity.
  - rewrite elem_of_app. intros [Hin | Hin]; [| done].
    vm_compute in Hin.
    repeat (apply elem_of_cons in Hin as [? | Hin]; [done |]).
    by apply elem_of_nil in Hin.
Qed.

Lemma strftime_pieces t :
  valid t →
  String.length (padded 4 (year t)) = 4%nat
  ∧ String.length (padded 2 (month t)) = 2%nat
  ∧ String.length (padded 2 (day t)) = 2%nat
  ∧ String.length (padded 2 (hour t)) = 2%nat
  ∧ String.length (padded 2 (minute t)) = 2%nat
  ∧ String.length (padded 2 (second t)) = 2%nat.
Proof.
  intros (Hy & Hm & Hd & HH & HM & HS).
  repeat split; apply field_ok_length;
    first [apply four_digit_fields | apply two_digit_fields]; lia.
Qed.

Lemma strftime_length t : valid t → String.length (strftime t) = 15%nat.
Proof.
  intros (Hy & Hm & Hd & HH & HM & HS)%strftime_pieces. unfold strftime.
  rewrite !length_append, Hy, Hm, Hd, HH, HM, HS. done.
Qed.

Lemma strftime_inj (t1 t2 : datetime) :
  valid t1 → valid t2 → strftime t1 = strftime t2 → to_second t1 = to_second t2.
Proof.
  intros Hv1 Hv2.
  pose proof (strftime_pieces t1 Hv1) as (Ly1 & Lm1 & Ld1 & LH1 & LM1 & LS1).
  pose proof (strftime_pieces t2 Hv2) as (Ly2 & Lm2 & Ld2 & LH2 & LM2 & LS2).
  destruct Hv1 as (Hy1 & Hm1 & Hd1 & HH1 & HM1 & HS1).
  destruct Hv2 as (Hy2 & Hm2 & Hd2 & HH2 & HM2 & HS2).
  unfold strftime, to_second. intros Heq.
  apply append_inj_length in Heq as [Ey Heq]; [| congruence].
  apply append_inj_length in Heq as [Em Heq]; [| congruence].
  apply append_inj_length in Heq as [Ed Heq]; [| congruence].
  apply append_inj_length in Heq as [_ Heq]; [| done].
  apply append_inj_length in Heq as [EH Heq]; [| congruence].
  apply append_inj_length in Heq as [EM ES]; [| congruence].
  apply field_ok_inj in Ey; [| apply four_digit_fields; lia ..].
  apply field_ok_inj in Em; [| apply two_digit_fields; lia ..].
  apply field_ok_inj in Ed; [| apply two_digit_fields; lia ..].
  apply field_ok_inj in EH; [| apply two_digit_fields; lia ..].
  apply field_ok_inj in EM; [| apply two_digit_fields; lia ..].
  apply field_ok_inj in ES; [| apply two_digit_fields; lia ..].
  congruence.
Qed.

(** X9: for valid datetimes the timestamp has fifteen characters and
    tells seconds apart: two of them are equal exactly when year, month,
    day, hour, minute and second are. *)
Theorem timestamps_tell_seconds_apart (t1 t2 : datetime) :
  valid t1 → valid t2 →
  String.length (strftime t1) = 15%nat
  ∧ (strftime t1 = strftime t2 ↔ to_second t1 = to_second t2).
Proof.
  intros Hv1 Hv2. split; [by apply strftime_length |]. split.
  - by apply strftime_inj.
  - unfold strftime, to_second. by intros [= -> -> -> -> -> ->].
Qed.

Lemma first_arrival_valid : valid first_arrival.
Proof. unfold valid. cbn. lia. Qed.

Lemma second_arrival_valid : valid second_arrival.
Proof. unfold valid. cbn. lia. Qed.

Lemma timestamps_tell_seconds_apart_witness :
  String.length (strftime first_arrival) = 15%nat
  ∧ (strftime first_arrival = strftime second_arrival
     ↔ to_second first_arrival = to_second second_arrival).
Proof.
  exact (timestamps_tell_seconds_apart first_arrival second_arrival
           first_arrival_valid second_arrival_valid).
Defined.

Lemma output_path_child timestamp :
  has_slash timestamp = false →
  output_path timestamp = TEMP_DIR ++ ["output_" +:+ timestamp +:+ ".wav"].
Proof.
  intros Hts. unfold output_path.
  change (TEMP_DIR ++ parts ("output_" +:+ timestamp +:+ ".wav")
          = TEMP_DIR ++ ["output_" +:+ timestamp +:+ ".wav"]).
  unfold parts. rewrite split_slash_none; [done |].
  by rewrite !has_slash_app, Hts.
Qed.

(** X10: whatever the time of the request, the scratch output is the file
    [output_<timestamp>.wav] directly in the scratch directory. *)
Theorem output_path_stays_in_scratch_dir (now : datetime) :
  output_path (strftime now) = TEMP_DIR ++ ["output_" +:+ strftime now +:+ ".wav"]
  ∧ str (output_path (strftime now))
    = "/tmp/audio_processing/output_" +:+ strftime now +:+ ".wav"
  ∧ inside TEMP_DIR (output_path (strftime now)) = true.
Proof.
  rewrite (output_path_child _ (has_slash_strftime now)). split; [done |].
  split; [done |]. apply inside_plain.
  apply not_elem_of_cons. split; [done | apply not_elem_of_nil].
Qed.

Lemma input_parts timestamp file_filename :
  has_slash timestamp = false →
  ∃ p ps,
    split_slash file_filename = p :: ps
    ∧ input_path timestamp file_filename
      = TEMP_DIR ++ ("input_" +:+ timestamp +:+ "_" +:+ p) :: List.filter kept ps.
Proof.
  intros Hts. unfold input_path.
  destruct (split_slash_prefix ("input_" +:+ timestamp +:+ "_") file_filename)
    as (p & ps & Hf & Hsplit); [by rewrite !has_slash_app, Hts |].
  exists p, ps. split; [done |].
  change (TEMP_DIR ++ parts ("input_" +:+ timestamp +:+ "_" +:+ file_filename)
          = TEMP_DIR ++ ("input_" +:+ timestamp +:+ "_" +:+ p) :: List.filter kept ps).
  unfold parts.
  replace ("input_" +:+ timestamp +:+ "_" +:+ file_filename)
    with (("input_" +:+ timestamp +:+ "_") +:+ file_filename)
    by by rewrite !append_assoc.
  rewrite Hsplit. cbn [List.filter].
  replace (("input_" +:+ timestamp +:+ "_") +:+ p)
    with ("input_" +:+ timestamp +:+ "_" +:+ p) by by rewrite !append_assoc.
  done.
Qed.

(** X11: a file name without a slash gives the scratch input
    [input_<timestamp>_<name>] directly in the scratch directory; and as
    long as no part of the file name after its first slash is [".."], the
    scratch input stays inside the scratch directory. *)
Theorem plain_filenames_stay_in_scratch_dir (now : datetime) (file_filename : string) :
  (has_slash file_filename = false →
   input_path (strftime now) file_filename
   = TEMP_DIR ++ ["input_" +:+ strftime now +:+ "_" +:+ file_filename])
  ∧ (".." ∉ tail (split_slash file_filename) →
     inside TEMP_DIR (input_path (strftime now) file_filename) = true).
Proof.
  destruct (input_parts (strftime now) file_filename (has_slash_strftime now))
    as (p & ps & Hf & ->).
  split.
  - intros Hplain. rewrite (split_slash_none _ Hplain) in Hf. by injection Hf as <- <-.
  - rewrite Hf. cbn [tail]. intros Hps. apply inside_plain.
    apply not_elem_of_cons. split; [done |].
    intros Hin. apply Hps.
    apply list_elem_of_In, filter_In in Hin as [Hin _]. by apply list_elem_of_In.
Qed.

Lemma plain_filenames_stay_in_scratch_dir_witness :
  input_path (strftime first_arrival) "evidence.wav"
  = TEMP_DIR ++ ["input_" +:+ strftime first_arrival +:+ "_" +:+ "evidence.wav"]
  ∧ inside TEMP_DIR (input_path (strftime first_arrival) "../notes/a.wav") = true.
Proof.
  split.
  - apply (plain_filenames_stay_in_scratch_dir first_arrival "evidence.wav").
    reflexivity.
  - apply (plain_filenames_stay_in_scratch_dir first_arrival "../notes/a.wav").
    vm_compute. intros Hin. by repeat (apply elem_of_cons in Hin as [? | Hin]; [done |]);
      apply elem_of_nil in Hin.
Defined.




End PathsExtras.

Module HandlerExtras.
Import Paths Handler HandlerFacts PathsFacts Scenarios.

(** X13: [process_audio_file] never raises: every error comes back as a
    result.  It starts the probe first, whatever the preset, and at most
    one more process, the transform; the transform is started only after
    the probe exited with zero, the duration was read from its output and
    the chain was built. *)
Theorem process_audio_file_probes_then_transforms (rt : runtime)
    (input output : Path) (preset_name : string)
    (custom_params : option Overrides) (fs : filesystem) :
  ∃ result fs' probe rest,
    process_audio_file rt input output preset_name custom_params fs
    = (Ok result, fs', Run (info_cmd input) probe :: rest)
    ∧ probe = (run rt (info_cmd input) fs).1
    ∧ (rest = []
       ∨ ∃ stdout stderr duration chain transform,
           probe = CompletedProcess 0 stdout stderr
           ∧ json_duration rt stdout = inr duration
           ∧ build_ffmpeg_filter preset_name custom_params = Ok chain
           ∧ rest = [Run (cmd input chain output) transform]).
Proof.
  rewrite process_audio_file_eq.
  destruct (run rt (info_cmd input) fs) as [[e | returncode stdout stderr] fs1];
    [by eauto 10 |].
  destruct (returncode =? 0) eqn:Hrc; cbn [negb]; [| by eauto 10].
  apply Z.eqb_eq in Hrc as ->.
  destruct (json_duration rt stdout) as [msg | duration] eqn:Hjson; [by eauto 10 |].
  destruct (build_ffmpeg_filter preset_name custom_params) as [chain | e] eqn:Hchain;
    [| by eauto 10].
  destruct (run rt (cmd input chain output) fs1)
    as [[e | returncode2 stdout2 stderr2] fs2].
  { do 4 eexists. split; [reflexivity |]. split; [done |]. right. by eauto 10. }
  destruct (negb (returncode2 =? 0)).
  { do 4 eexists. split; [reflexivity |]. split; [done |]. right. by eauto 10. }
  destruct (fs2 !! output).
  all: do 4 eexists; (split; [reflexivity |]); (split; [done |]); right; by eauto 10.
Qed.

(** X14: a success report of [process_audio_file] is accurate: the preset
    it names is the one asked for, its chain is the chain built for that
    preset and those overrides, its duration is the one read from the
    probe's output, both tools exited with zero, and its size is the
    length of the file at the output path. *)
Theorem success_report_is_accurate (rt : runtime) (input output : Path)
    (preset_name : string) (custom_params : option Overrides) (fs fs' : filesystem)
    (evs : list event) (duration : float) (output_size : Z)
    (preset_used filter_chain : string) :
  process_audio_file rt input output preset_name custom_params fs
  = (Ok (Success duration output_size preset_used filter_chain), fs', evs) →
  preset_used = preset_name
  ∧ build_ffmpeg_filter preset_name custom_params = Ok filter_chain
  ∧ ∃ stdout stderr stdout2 stderr2 data,
      evs = [Run (info_cmd input) (CompletedProcess 0 stdout stderr);
             Run (cmd input filter_chain output) (CompletedProcess 0 stdout2 stderr2)]
      ∧ json_duration rt stdout = inr duration
      ∧ fs' !! output = Some data
      ∧ output_size = Py.strlen data.
Proof.
  rewrite process_audio_file_eq.
  destruct (run rt (info_cmd input) fs) as [[e | returncode stdout stderr] fs1];
    [done |].
  destruct (returncode =? 0) eqn:Hrc; cbn [negb]; [| done].
  apply Z.eqb_eq in Hrc as ->.
  destruct (json_duration rt stdout) as [msg | duration'] eqn:Hjson; [done |].
  destruct (build_ffmpeg_filter preset_name custom_params) as [chain | e] eqn:Hchain;
    [| done].
  destruct (run rt (cmd input chain output) fs1)
    as [[e | returncode2 stdout2 stderr2] fs2]; [done |].
  destruct (returncode2 =? 0) eqn:Hrc2; cbn [negb]; [| done].
  apply Z.eqb_eq in Hrc2 as ->.
  destruct (fs2 !! output) as [data |] eqn:Hout; [| done].
  intros [= <- <- <- <- <- <-]. split; [done |]. split; [done |].
  by exists stdout, stderr, stdout2, stderr2, data.
Qed.

Lemma success_report_is_accurate_witness :
  ∃ chain,
    (process_audio_file healthy sample_input sample_output "whisper" None ∅).1.1
    = Ok (Success 1.5 14 "whisper" chain)
    ∧ build_ffmpeg_filter "whisper" None = Ok chain.
Proof.
  destruct (process_audio_file healthy sample_input sample_output "whisper" None ∅)
    as [[r fs'] evs] eqn:Hrun.
  assert (∃ chain, r = Ok (Success 1.5 14 "whisper" chain)) as [chain ->].
  { change r with (r, fs', evs).1.1. rewrite <- Hrun. eexists. vm_compute. reflexivity. }
  exists chain. split; [reflexivity |].
  exact (proj1 (proj2 (success_report_is_accurate healthy sample_input sample_output
                         "whisper" None ∅ fs' evs _ _ _ _ Hrun))).
Defined.

(** What [process_audio_file] leaves of the file system is what the two
    tools left. *)
Lemma process_audio_file_read_only rt input output preset_name custom_params fs :
  read_only_tools rt →
  (process_audio_file rt input output preset_name custom_params fs).1.2 = fs.
Proof.
  intros Hpure. rewrite process_audio_file_eq.
  pose proof (Hpure (info_cmd input) fs) as Hprobe.
  destruct (run rt (info_cmd input) fs) as [[e | returncode stdout stderr] fs1];
    cbn in Hprobe; subst fs1; [done |].
  destruct (negb (returncode =? 0)); [done |].
  destruct (json_duration rt stdout) as [msg | duration]; [done |].
  destruct (build_ffmpeg_filter preset_name custom_params) as [chain | e]; [| done].
  pose proof (Hpure (cmd input chain output) fs) as Htransform.
  destruct (run rt (cmd input chain output) fs)
    as [[e | returncode2 stdout2 stderr2] fs2]; cbn in Htransform; subst fs2; [done |].
  destruct (negb (returncode2 =? 0)); [done |].
  by destruct (fs !! output).
Qed.



(** X16: a request starts at most three processes, always in the order
    availability check, probe, transform, and each one only after the one
    before it exited with zero; the transform moreover only once the
    chain for the preset was built.  It starts none exactly when the
    upload cannot be stored. *)
Theorem processes_run_in_order (rt : runtime) (now : datetime)
    (file_filename file_content preset : string) (fs : filesystem) :
  let input := input_path (strftime now) file_filename in
  let output := output_path (strftime now) in
  let evs := (process_audio rt now file_filename file_content preset fs).2 in
  (evs = [] ↔ is_Some (open_error rt input fs))
  ∧ (evs = []
     ∨ (∃ version, evs = [Run version_cmd version])
     ∨ (∃ v_out v_err probe,
          evs = [Run version_cmd (CompletedProcess 0 v_out v_err);
                 Run (info_cmd input) probe])
     ∨ (∃ v_out v_err stdout stderr chain transform,
          build_ffmpeg_filter preset None = Ok chain
          ∧ evs = [Run version_cmd (CompletedProcess 0 v_out v_err);
                   Run (info_cmd input) (CompletedProcess 0 stdout stderr);
                   Run (cmd input chain output) transform])).
Proof.
  rewrite process_audio_eq. cbn zeta.
  generalize (output_path (strftime now)).
  generalize (input_path (strftime now) file_filename). intros input output.
  rewrite process_audio_try_eq.
  destruct (open_error rt input fs) as [e |];
    [cbn; split; [by split; eauto | by left] |].
  assert (∀ (ev : event) evs, ev :: evs = [] ↔ is_Some (@None os_error)) as Hnone.
  { intros ev evs. split; [done | by intros [? [=]]]. }
  destruct (run rt version_cmd (<[input:=file_content]> fs))
    as [[[msg | msg] | returncode v_out v_err] fs1];
    [cbn; split; [apply Hnone | by eauto 6] .. |].
  destruct (returncode =? 0) eqn:Hrc; cbn [negb];
    [| cbn; split; [apply Hnone | by eauto 6]].
  apply Z.eqb_eq in Hrc as ->.
  rewrite process_audio_file_eq.
  destruct (run rt (info_cmd input) fs1) as [[e | returncode' stdout stderr] fs2];
    [cbn; split; [apply Hnone | by eauto 10] |].
  destruct (returncode' =? 0) eqn:Hrc'; cbn [negb];
    [| cbn; split; [apply Hnone | by eauto 10]].
  apply Z.eqb_eq in Hrc' as ->.
  destruct (json_duration rt stdout) as [msg | duration];
    [cbn; split; [apply Hnone | by eauto 10] |].
  destruct (build_ffmpeg_filter preset None) as [chain | e];
    [| cbn; split; [apply Hnone | by eauto 10]].
  assert (∀ transform,
            ∃ v_out0 v_err0 stdout0 stderr0 chain0 transform0,
              Ok chain = Ok chain0
              ∧ [Run version_cmd (CompletedProcess 0 v_out v_err);
                 Run (info_cmd input) (CompletedProcess 0 stdout stderr);
                 Run (cmd input chain output) transform]
                = [Run version_cmd (CompletedProcess 0 v_out0 v_err0);
                   Run (info_cmd input) (CompletedProcess 0 stdout0 stderr0);
                   Run (cmd input chain0 output) transform0]) as Hthree.
  { intros transform. by exists v_out, v_err, stdout, stderr, chain, transform. }
  destruct (run rt (cmd input chain output) fs2)
    as [[e | returncode2 stdout2 stderr2] fs3];
    [cbn; split; [apply Hnone | by auto 10] |].
  destruct (negb (returncode2 =? 0)); [cbn; split; [apply Hnone | by auto 10] |].
  destruct (fs3 !! output) as [data |] eqn:Hout; cbn;
    [rewrite Hout | split; [apply Hnone | by auto 10]].
  destruct (Py.strlen data =? 0); cbn; (split; [apply Hnone |]); by auto 10.
Qed.

(** X17: when the availability check [ffmpeg -version] finds no program,
    or exits with a status other than zero, the request fails with the
    fixed detail and nothing else was started: neither the probe nor the
    transform runs. *)
Theorem unusable_ffmpeg_stops_the_request (rt : runtime) (now : datetime)
    (file_filename file_content preset : string) (fs : filesystem)
    (version : completed) :
  let input := input_path (strftime now) file_filename in
  open_error rt input fs = None →
  (run rt version_cmd (<[input := file_content]> fs)).1 = version →
  match version with
  | Failed_to_start (NotFound _) => True
  | Failed_to_start (Refused _) => False
  | CompletedProcess returncode _ _ => returncode ≠ 0
  end →
  (process_audio rt now file_filename file_content preset fs).1.1
  = Raise (HTTPException 500 "FFmpeg is not installed or not working")
  ∧ (process_audio rt now file_filename file_content preset fs).2
    = [Run version_cmd version].
Proof.
  cbn zeta. rewrite process_audio_eq. cbn zeta.
  generalize (output_path (strftime now)).
  generalize (input_path (strftime now) file_filename). intros input output.
  rewrite process_audio_try_eq. intros -> <-.
  destruct (run rt version_cmd (<[input:=file_content]> fs))
    as [[[msg | msg] | returncode v_out v_err] fs1]; cbn; [done | done |].
  intros Hrc%Z.eqb_neq. by rewrite Hrc.
Qed.

Lemma unusable_ffmpeg_stops_the_request_witness :
  (process_audio no_ffmpeg first_arrival "evidence.wav" "bytes" "whisper" ∅).1.1
  = Raise (HTTPException 500 "FFmpeg is not installed or not working")
  ∧ (process_audio no_ffmpeg first_arrival "evidence.wav" "bytes" "whisper" ∅).2
    = [Run version_cmd
         (Failed_to_start (NotFound "[Errno 2] No such file or directory: 'ffmpeg'"))].
Proof.
  apply (unusable_ffmpeg_stops_the_request no_ffmpeg first_arrival "evidence.wav"
           "bytes" "whisper" ∅); [reflexivity | reflexivity | exact I].
Defined.



(** X19: what the handler itself does to the file system.  With tools
    that write nothing, and an operating system that lets files be
    created and removed, every request leaves the file system as it found
    it except for the scratch input's path, where nothing is left: the
    upload is gone again, and so is any file that was there before the
    request. *)
Theorem request_footprint (rt : runtime) (now : datetime)
    (file_filename file_content preset : string) (fs : filesystem) :
  read_only_tools rt → permissive rt →
  (process_audio rt now file_filename file_content preset fs).1.2
  = delete (input_path (strftime now) file_filename) fs.
Proof.
  intros Hpure [Hopen Hunlink]. rewrite process_audio_eq. cbn zeta.
  generalize (output_path (strftime now)).
  generalize (input_path (strftime now) file_filename). intros input output.
  rewrite process_audio_try_eq, Hopen.
  assert (cleaned rt input (<[input:=file_content]> fs) = delete input fs) as Hclean.
  { unfold cleaned. by rewrite lookup_insert_eq, Hunlink, delete_insert_eq. }
  pose proof (Hpure version_cmd (<[input:=file_content]> fs)) as Hversion.
  destruct (run rt version_cmd (<[input:=file_content]> fs))
    as [[[msg | msg] | returncode v_out v_err] fs1]; cbn in Hversion; subst fs1;
    [done | done |].
  destruct (negb (returncode =? 0)); [done |].
  pose proof (process_audio_file_read_only rt input output preset None
                (<[input:=file_content]> fs) Hpure) as Hfile.
  destruct (process_audio_file rt input output preset None (<[input:=file_content]> fs))
    as [[r fs2] evs]. cbn in Hfile. subst fs2.
  destruct r as [[duration size used chain | error] | e]; [| done | done].
  destruct (<[input:=file_content]> fs !! output) as [data |]; [| done].
  by destruct (Py.strlen data =? 0).
Qed.

Lemma silent_is_read_only : read_only_tools silent.
Proof.
  intros argv fs. unfold silent, tools. cbn.
  repeat match goal with
         | |- context [match ?x with _ => _ end] => is_var x; destruct x
         end;
    reflexivity.
Qed.

Lemma silent_is_permissive : permissive silent.
Proof. by split. Qed.

Lemma request_footprint_witness :
  (process_audio silent first_arrival "evidence.wav" "bytes" "whisper"
     earlier_upload).1.2
  = delete sample_input earlier_upload.
Proof.
  exact (request_footprint silent first_arrival "evidence.wav" "bytes" "whisper"
           earlier_upload silent_is_read_only silent_is_permissive).
Defined.

End HandlerExtras.

Module DebugExtras.
Import Paths Handler HandlerFacts DebugEndpoint.

(** [debug_info] with its control flow laid out. *)
Lemma debug_info_eq rt scandir fs :
  debug_info rt scandir fs
  = let '(version, fs1) := run rt version_cmd fs in
    let ran := [Run version_cmd version] in
    match version with
    | Failed_to_start e => (Ok (Error (Py.str_of_exn (exn_of_os_error e))), fs1, ran)
    | CompletedProcess returncode stdout stderr =>
        match scandir TEMP_DIR fs1 with
        | Some (inl e) => (Ok (Error (Py.str_of_exn (exn_of_os_error e))), fs1, ran)
        | listing =>
            (Ok (Report
                   {| status := "debug";
                      ffmpeg_available := returncode =? 0;
                      ffmpeg_version :=
                        if returncode =? 0 then first_line stdout else "Not available";
                      temp_dir := str TEMP_DIR;
                      temp_dir_exists := bool_decide (is_Some listing);
                      temp_files :=
                        match listing with
                        | Some (inr names) =>
                            map (λ entry, str (TEMP_DIR ++ [entry])) names
                        | _ => []
                        end;
                      presets := Py.dict_keys PRESETS |}), fs1, ran)
        end
    end.
Proof.
  unfold debug_info, dir_exists, glob_all. unfold_M.
  generalize TEMP_DIR. intros dir.
  destruct (run rt version_cmd fs) as [[e | returncode stdout stderr] fs1]; [done |].
  cbn. destruct (scandir dir fs1) as [[e | names] |] eqn:Hdir; cbn.
  - by rewrite Hdir.
  - rewrite Hdir. cbn. rewrite Hdir. by rewrite map_map.
  - by rewrite Hdir.
Qed.

(** A text is its first line, followed by nothing or by a line break
    and the rest. *)
Lemma first_line_prefix s :
  ∃ rest, s = first_line s +:+ rest ∧ (rest = "" ∨ ∃ rest', rest = String "010" rest').
Proof.
  induction s as [| c s (rest & IH & Hrest)]; [exists ""; by auto |]. cbn.
  destruct (Ascii.eqb_spec c "010") as [-> | _].
  - exists (String "010" s). split; [done |]. right. by exists s.
  - exists rest. split; [exact (f_equal (String c) IH) | done].
Qed.

Lemma first_line_one_line s : has_newline (first_line s) = false.
Proof.
  induction s as [| c s IH]; [done |]. cbn.
  destruct (Ascii.eqb c "010") eqn:Hc; [done |]. cbn. by rewrite Hc.
Qed.

Lemma dict_get_keys {V} (d : list (string * V)) key :
  is_Some (Py.dict_get d key) ↔ key ∈ Py.dict_keys d.
Proof.
  induction d as [| [k v] d IH]; cbn.
  - split; [by intros [? [=]] | by intros ?%elem_of_nil].
  - rewrite elem_of_cons. destruct (String.eqb_spec k key) as [-> | Hne].
    + split; [by left | by eauto].
    + rewrite IH. split; [by right | by intros [-> | ?]].
Qed.

(** The names for which a chain is built are the keys of the catalog. *)
Lemma accepted_names preset_name :
  (∃ chain, build_ffmpeg_filter preset_name None = Ok chain)
  ↔ preset_name ∈ Py.dict_keys PRESETS.
Proof.
  rewrite <- dict_get_keys. split.
  - intros [chain Hchain]. unfold build_ffmpeg_filter in Hchain.
    by destruct (Py.dict_get PRESETS preset_name).
  - intros Hkey%dict_get_keys.
    repeat (apply elem_of_cons in Hkey as [-> | Hkey];
            [eexists; vm_compute; reflexivity |]).
    by apply elem_of_nil in Hkey.
Qed.

(** X20: the debug endpoint never raises and starts exactly one process,
    [ffmpeg -version]; it touches no file.  It answers with an error only
    when that process cannot be started or the scratch directory cannot
    be listed: an ffmpeg that exits with a failure status still gets a
    report, with ffmpeg marked as not available. *)
Theorem debug_info_always_answers (rt : runtime)
    (scandir : Path → filesystem → option (os_error + list string))
    (fs : filesystem) :
  let version := (run rt version_cmd fs).1 in
  let fs1 := (run rt version_cmd fs).2 in
  ∃ answer,
    debug_info rt scandir fs = (Ok answer, fs1, [Run version_cmd version])
    ∧ ((∃ error, answer = Error error)
       ↔ (∃ e, version = Failed_to_start e) ∨ (∃ e, scandir TEMP_DIR fs1 = Some (inl e)))
    ∧ (∀ returncode stdout stderr r,
         version = CompletedProcess returncode stdout stderr →
         answer = Report r →
         ffmpeg_available r = bool_decide (returncode = 0)).
Proof.
  cbn zeta. rewrite debug_info_eq.
  destruct (run rt version_cmd fs) as [[e | returncode stdout stderr] fs1]; cbn [fst snd].
  { eexists. split; [reflexivity |]. split; [| done].
    split; [by eauto | by eauto]. }
  destruct (scandir TEMP_DIR fs1) as [[e | names] |].
  - eexists. split; [reflexivity |]. split; [split; by eauto | done].
  - eexists. split; [reflexivity |]. split.
    + split; [by intros [? [=]] | by intros [[? [=]] | [? [=]]]].
    + intros ???? [= <- <- <-] [= <-]. cbn.
      destruct (Z.eqb_spec returncode 0);
        [by rewrite bool_decide_eq_true_2 | by rewrite bool_decide_eq_false_2].
  - eexists. split; [reflexivity |]. split.
    + split; [by intros [? [=]] | by intros [[? [=]] | [? [=]]]].
    + intros ???? [= <- <- <-] [= <-]. cbn.
      destruct (Z.eqb_spec returncode 0);
        [by rewrite bool_decide_eq_true_2 | by rewrite bool_decide_eq_false_2].
Qed.

(** X21: the preset names that the debug endpoint reports are exactly the
    names for which [build_ffmpeg_filter] builds a chain: each reported
    name is accepted, and every other name is rejected as unknown. *)
Theorem debug_presets_are_the_accepted_names (rt : runtime)
    (scandir : Path → filesystem → option (os_error + list string))
    (fs fs' : filesystem) (evs : list event) (r : report) :
  debug_info rt scandir fs = (Ok (Report r), fs', evs) →
  ∀ preset_name,
    (preset_name ∈ presets r
     ↔ ∃ chain, build_ffmpeg_filter preset_name None = Ok chain)
    ∧ (preset_name ∉ presets r
       ↔ ∀ custom_params,
           build_ffmpeg_filter preset_name custom_params
           = Raise (ValueError ("Unknown preset: " +:+ preset_name))).
Proof.
  rewrite debug_info_eq.
  destruct (run rt version_cmd fs) as [[e | returncode stdout stderr] fs1]; [done |].
  assert (presets r = Py.dict_keys PRESETS → ∀ preset_name,
    (preset_name ∈ presets r
     ↔ ∃ chain, build_ffmpeg_filter preset_name None = Ok chain)
    ∧ (preset_name ∉ presets r
       ↔ ∀ custom_params,
           build_ffmpeg_filter preset_name custom_params
           = Raise (ValueError ("Unknown preset: " +:+ preset_name)))) as Hkeys.
  { intros -> preset_name. split; [by rewrite accepted_names |]. split.
    - rewrite <- dict_get_keys. intros Hnone custom_params.
      unfold build_ffmpeg_filter.
      destruct (Py.dict_get PRESETS preset_name); [| done].
      by destruct Hnone.
    - intros Hraise [chain Hchain]%accepted_names.
      by rewrite Hraise in Hchain. }
  destruct (scandir TEMP_DIR fs1) as [[e | names] |]; [done | |];
    intros [= <- _ _]; by apply Hkeys.
Qed.

Lemma debug_presets_are_the_accepted_names_witness :
  (∃ chain, build_ffmpeg_filter "tv_suppress" None = Ok chain)
  ∧ ∀ custom_params,
      build_ffmpeg_filter "studio" custom_params
      = Raise (ValueError "Unknown preset: studio").
Proof.
  destruct (debug_info healthy two_leftovers ∅) as [[answer fs'] evs] eqn:Hrun.
  assert (∃ r, answer = Ok (Report r)
               ∧ presets r = ["whisper"; "breath"; "vocal"; "tv_suppress";
                              "clean_whisper"; "gentle_enhance"]) as (r & -> & Hr).
  { change answer with (answer, fs', evs).1.1. rewrite <- Hrun.
    eexists. split; vm_compute; reflexivity. }
  pose proof (debug_presets_are_the_accepted_names healthy two_leftovers ∅ fs' evs r
                Hrun) as Hnames.
  split.
  - apply (Hnames "tv_suppress"). rewrite Hr.
    repeat (apply elem_of_cons; first [by left | right]).
  - apply (Hnames "studio"). rewrite Hr. intros Hin.
    repeat (apply elem_of_cons in Hin as [? | Hin]; [done |]).
    by apply elem_of_nil in Hin.
Defined.

(** X22: what a report holds.  The directory is always
    [/tmp/audio_processing]; the files are the directory's entries, in
    the order of the listing, each as the directory's path, a slash and
    the entry's name, which holds no slash: every file lies directly in
    the directory; a directory that does not exist has no files.  When
    ffmpeg is marked available the check exited with zero and the
    version is the first line of what it printed: it holds no line
    break, and what follows it in the output is nothing or starts with a
    line break.  Otherwise the version reads [Not available]. *)
Theorem debug_report_contents (rt : runtime)
    (scandir : Path → filesystem → option (os_error + list string))
    (fs fs' : filesystem) (evs : list event) (r : report) :
  entries_are_names scandir →
  debug_info rt scandir fs = (Ok (Report r), fs', evs) →
  status r = "debug"
  ∧ temp_dir r = "/tmp/audio_processing"
  ∧ match scandir TEMP_DIR fs' with
    | Some (inr names) =>
        temp_dir_exists r = true
        ∧ temp_files r = map (λ entry, "/tmp/audio_processing/" +:+ entry) names
        ∧ Forall (λ entry, has_slash entry = false) names
    | Some (inl _) => False
    | None => temp_dir_exists r = false ∧ temp_files r = []
    end
  ∧ (ffmpeg_available r = false → ffmpeg_version r = "Not available")
  ∧ (ffmpeg_available r = true →
     has_newline (ffmpeg_version r) = false
     ∧ ∃ stdout stderr rest,
         evs = [Run version_cmd (CompletedProcess 0 stdout stderr)]
         ∧ stdout = ffmpeg_version r +:+ rest
         ∧ (rest = "" ∨ ∃ rest', rest = String "010" rest')).
Proof.
  intros Hnames. rewrite debug_info_eq.
  destruct (run rt version_cmd fs) as [[e | returncode stdout stderr] fs1]; [done |].
  assert ((returncode =? 0) = true →
          has_newline (first_line stdout) = false
          ∧ ∃ stdout0 stderr0 rest,
              [Run version_cmd (CompletedProcess returncode stdout stderr)]
              = [Run version_cmd (CompletedProcess 0 stdout0 stderr0)]
              ∧ stdout0 = first_line stdout +:+ rest
              ∧ (rest = "" ∨ ∃ rest', rest = String "010" rest')) as Hversion.
  { intros ->%Z.eqb_eq. split; [apply first_line_one_line |].
    destruct (first_line_prefix stdout) as (rest & Hrest & Hbreak).
    by exists stdout, stderr, rest. }
  destruct (scandir TEMP_DIR fs1) as [[e | names] |] eqn:Hdir; [done | |];
    intros [= <- <- <-]; rewrite Hdir; cbn.
  all: destruct (returncode =? 0) eqn:Hrc.
  all: repeat split; try done; try (by apply Hversion).
  all: by apply (Hnames TEMP_DIR fs1).
Qed.

Lemma two_leftovers_are_names : entries_are_names two_leftovers.
Proof. intros p fs names [= <-]. by repeat constructor. Qed.

Lemma debug_report_contents_witness :
  ∃ r,
    (debug_info healthy two_leftovers ∅).1.1 = Ok (Report r)
    ∧ ffmpeg_version r = "ffmpeg version 6.1"
    ∧ temp_dir r = "/tmp/audio_processing"
    ∧ temp_files r = ["/tmp/audio_processing/output_20250301_115900.wav";
                      "/tmp/audio_processing/output_20250301_115901.wav"].
Proof.
  destruct (debug_info healthy two_leftovers ∅) as [[answer fs'] evs] eqn:Hrun.
  assert (∃ r, answer = Ok (Report r) ∧ ffmpeg_version r = "ffmpeg version 6.1")
    as (r & -> & Hr).
  { change answer with (answer, fs', evs).1.1. rewrite <- Hrun.
    eexists. split; vm_compute; reflexivity. }
  destruct (debug_report_contents healthy two_leftovers ∅ fs' evs r
              two_leftovers_are_names Hrun) as (_ & Hdir & Hfiles & _).
  exists r. cbn in Hfiles. destruct Hfiles as (_ & Hfiles & _). by repeat split.
Defined.

End DebugExtras.

Module HistoryExtras.
Import Heap HeapFacts History.

Lemma after_calls_frame (s : store) (calls : list (string * option overrides)) :
  PRESETS_ref (after_calls s calls) = PRESETS_ref s
  ∧ heap s ⊆ heap (after_calls s calls).
Proof.
  revert s. induction calls as [| [preset_name custom_params] calls IH]; intros s.
  - done.
  - cbn. destruct (IH (Heap.build_ffmpeg_filter s preset_name custom_params).1)
      as [Href Hsub].
    destruct (build_ffmpeg_filter_heap s preset_name custom_params) as [Href' _].
    split; [congruence |].
    etrans; [apply build_ffmpeg_filter_frame | exact Hsub].
Qed.

Lemma initial_catalog : catalog_value initial_store = Some PRESETS.
Proof. vm_compute. reflexivity. Qed.

(** X23: the catalog survives any history.  After any series of calls,
    with any names and any overrides, on the store that the module's top
    level leaves, the catalog still reads as [PRESETS], and the next call
    returns what [build_ffmpeg_filter] returns on the values: no request
    changes what a later one gets. *)
Theorem answers_do_not_depend_on_history
    (calls : list (string * option overrides)) :
  let s := after_calls initial_store calls in
  catalog_value s = Some PRESETS
  ∧ ∀ preset_name custom_params custom_v,
      custom_value (heap s) custom_params = Some custom_v →
      (Heap.build_ffmpeg_filter s preset_name custom_params).2
      = Some (build_ffmpeg_filter_on_values preset_name custom_v).
Proof.
  cbn zeta. destruct (after_calls_frame initial_store calls) as [Href Hsub].
  assert (catalog_value (after_calls initial_store calls) = Some PRESETS) as Hcat
    by (by apply (catalog_value_mono initial_store), initial_catalog).
  split; [done |]. intros preset_name custom_params custom_v Hv.
  by apply build_ffmpeg_filter_runs.
Qed.

End HistoryExtras.
